(** * simar-sw: channel routing and SPI bus arbitration

    A shallow embedding of the routing code of the SIMAR sensor software:
    - [src/spi/common.c]: GPIO register banks, the SPI transport, the
      parity-checked module selection of the extender boards;
    - [src/i2c/common.c]: the direct demultiplexer, the extender address;
    - [src/bme280/common/common.c]: the routing done before a sensor read.

    The C globals and the devices the code talks to (the spidev controller,
    the GPIO register banks, the kernel's answers) form one [World]; every C
    function is a computation in a state monad over it that can also crash
    (a store through a NULL register-bank pointer).  Every device call is
    recorded in a trace, so that "which transfers were issued" is a property
    of the final world. *)

From Stdlib Require Import ZArith Lia Bool Btauto.
From stdpp Require Import base numbers option list strings.

#[local] Open Scope Z_scope.

(** ** C integer conversions *)

Module CInt.

(** Conversion to an unsigned type of [n] bits. *)
Definition to_unsigned (n z : Z) : Z := z mod 2 ^ n.

Definition to_uint8 : Z -> Z := to_unsigned 8.
Definition to_uint32 : Z -> Z := to_unsigned 32.

(** [unsigned long] of the 32-bit ARM target. *)
Definition to_ulong : Z -> Z := to_unsigned 32.

(** The byte a [char] holds, as the value the bus sees (0..255). *)
Definition to_char : Z -> Z := to_unsigned 8.

(** Conversion to [int8_t]. *)
Definition to_int8 (z : Z) : Z := (z + 128) mod 256 - 128.

(** C's [!x]. *)
Definition lnot (z : Z) : Z := if z =? 0 then 1 else 0.

(** C's truth of an integer. *)
Definition truth (z : Z) : bool := negb (z =? 0).

End CInt.

(** ** Constants of [src/spi/common.h] *)

Definition GPIO_LENGTH : Z := 4096.
Definition GPIO0_ADDR : Z := 0x44E07000.
Definition GPIO1_ADDR : Z := 0x4804C000.
Definition GPIO2_ADDR : Z := 0x481AC000.
Definition GPIO3_ADDR : Z := 0x481AF000.

Definition MMIO_SUCCESS : Z := 0.
Definition MMIO_ERROR_ARGUMENT : Z := -1.
Definition MMIO_ERROR_DEVMEM : Z := -2.
Definition MMIO_ERROR_MMAP : Z := -3.

Definition MMIO_OE_ADDR : Z := 0x134.
Definition MMIO_GPIO_DATAOUT : Z := 0x13C.
Definition MMIO_GPIO_DATAIN : Z := 0x138.
Definition MMIO_GPIO_CLEARDATAOUT : Z := 0x190.
Definition MMIO_GPIO_SETDATAOUT : Z := 0x194.

(** The four entries of [enum pins] the routing code uses. *)
Definition P9_14 : Z := 50.
Definition P9_15 : Z := 48.
Definition P9_16 : Z := 51.
Definition P9_17 : Z := 5.

(** [SPI_MODE_3] of <linux/spi/spidev.h>: [SPI_CPOL | SPI_CPHA]. *)
Definition SPI_MODE_3 : Z := Z.lor 0x02 0x01.

(** ** The parity bit and the control frame ([src/spi/common.c]) *)

(** [calculate_parity], lines 125-133.  On [int], [^] and [>>] never
    overflow, and [Z.lxor]/[Z.shiftr] agree with them on two's complement. *)
Definition calculate_parity (x : Z) : Z :=
  let y := Z.lxor x (Z.shiftr x 1) in
  let y := Z.lxor y (Z.shiftr y 2) in
  let y := Z.lxor y (Z.shiftr y 4) in
  let y := Z.lxor y (Z.shiftr y 8) in
  let y := Z.lxor y (Z.shiftr y 16) in
  Z.land y 1.

(** The byte [msg_c[0]] that [select_module] builds, lines 167-173:
    [msg] is an [unsigned long], the initialiser of [msg_c] keeps its low
    byte. *)
Definition select_module_msg (address module : Z) : Z :=
  let parity := calculate_parity address in
  let msg := CInt.to_ulong (Z.lor (Z.shiftl parity 4) address) in
  let msg := CInt.to_ulong (Z.lor (Z.shiftl msg 3) (CInt.to_ulong module)) in
  CInt.to_char msg.

(** ** The frame layout, as the protocol states it

    One byte, [parity:1][board_address:4][module:3]. *)
Module Frame.

Definition parity_bit (f : Z) : Z := Z.land (Z.shiftr f 7) 1.
Definition board_address (f : Z) : Z := Z.land (Z.shiftr f 3) 15.
Definition module (f : Z) : Z := Z.land f 7.

(** Number of ones among the low four bits of [a]. *)
Definition ones4 (a : Z) : Z :=
  Z.b2z (Z.testbit a 0) + Z.b2z (Z.testbit a 1)
  + Z.b2z (Z.testbit a 2) + Z.b2z (Z.testbit a 3).

(** The even-parity bit of a nibble: the bit that makes the number of
    ones, parity bit included, even. *)
Definition even_parity (a : Z) : Z := ones4 a mod 2.

(** The reference table of the even-parity bit of the 16 nibbles. *)
Definition parity_table : list Z :=
  [0; 1; 1; 0; 1; 0; 0; 1; 1; 0; 0; 1; 0; 1; 1; 0].

End Frame.

(** ** Data of the driver *)

(** A pointer to a register bank: [NULL], or the mapping [mmap] returned for
    the 4 KB window at physical address [phys]. *)
Inductive ptr : Type :=
| NULL
| Mapped (phys : Z).

(** [gpio_t] of [src/spi/common.h]. *)
Record gpio_t : Type := {
  pin : Z;
  base : ptr;
  number : Z
}.

(** [struct spi_ioc_transfer], the fields the code sets.  [tx_buf] is the
    content of the transmit buffer.  [rx_buf] is a place and not a value:
    what a call leaves there is the environment's ([received], below), and
    the code looks at it in one place only, the dummy transfers of
    [read_data], whose receive buffer is their transmit buffer. *)
Record spi_ioc_transfer : Type := {
  tx_buf : list Z;
  len : Z;
  delay_usecs : Z;
  speed_hz : Z;
  bits_per_word : Z
}.

(** The globals of [src/spi/common.c].  [mod_bits] and [mod_mode] are
    globals too, but nothing assigns them: they are the constants below. *)
Record spi_globals : Type := {
  gpio_base : list ptr;
  _bits : Z;
  _speed : Z;
  _delay : Z;
  _mode : Z;
  fd : Z;
  cs_pin : gpio_t;
  ds_pin : gpio_t
}.

Definition mod_bits : Z := 8.
Definition mod_mode : Z := SPI_MODE_3.

Definition gpio_addresses : list Z :=
  [GPIO0_ADDR; GPIO1_ADDR; GPIO2_ADDR; GPIO3_ADDR].

(** The globals of [src/i2c/common.c]. *)
Record i2c_globals : Type := {
  mux0 : gpio_t;
  mux1 : gpio_t;
  pins_configured : Z;
  ext_addr : Z
}.

(** ** The devices *)

(** The registers of one GPIO bank that the driver touches. *)
Record gpio_regs : Type := {
  oe : Z;
  dataout : Z;
  datain : Z
}.

(** The configuration requests of <linux/spi/spidev.h> that the routing
    code issues. *)
Inductive spi_ioc : Type :=
| SPI_IOC_WR_MODE
| SPI_IOC_WR_BITS_PER_WORD.

(** The profile the spidev controller is configured with. *)
Record profile : Type := {
  p_mode : Z;
  p_bits : Z;
  p_speed : Z
}.

(** What the program does to the outside, in order. *)
Inductive event : Type :=
| EvOpen (path : string) (ret : Z)
| EvMmap (length offset : Z) (ret : Z)
| EvIoctl (req : spi_ioc) (arg : Z)
| EvMessage (n : Z) (tr : spi_ioc_transfer) (ret : Z)
| EvWrite (fildes : Z) (data : list Z) (count : Z) (ret : Z)
| EvRead (fildes : Z) (count : Z) (ret : Z)
| EvStore (phys : Z) (reg : Z) (value : Z).

(** The environment: the controller's active profile, the register banks
    by physical address, the kernel's answers to the calls that can fail
    ([kernel n] answers the [n]-th of them), the byte that each of these
    calls leaves in a receive buffer of one byte ([received n] for the
    [n]-th call: what the device shifted out, or what the buffer held
    before when the call stored nothing), and the trace. *)
Record devices : Type := {
  spidev : profile;
  gpio_hw : Z -> gpio_regs;
  kernel : nat -> Z;
  received : nat -> Z;
  asked : nat;
  trace : list event
}.

Record World : Type := {
  spi : spi_globals;
  i2c : i2c_globals;
  dev : devices
}.

(** Field updates. *)
Definition with_dev (f : devices -> devices) (w : World) : World :=
  {| spi := spi w; i2c := i2c w; dev := f (dev w) |}.
Definition with_spi (f : spi_globals -> spi_globals) (w : World) : World :=
  {| spi := f (spi w); i2c := i2c w; dev := dev w |}.
Definition with_i2c (f : i2c_globals -> i2c_globals) (w : World) : World :=
  {| spi := spi w; i2c := f (i2c w); dev := dev w |}.

Definition log (e : event) (d : devices) : devices :=
  {| spidev := spidev d; gpio_hw := gpio_hw d; kernel := kernel d;
     received := received d; asked := asked d; trace := trace d ++ [e] |}.
Definition answered (d : devices) : devices :=
  {| spidev := spidev d; gpio_hw := gpio_hw d; kernel := kernel d;
     received := received d; asked := S (asked d); trace := trace d |}.
Definition set_spidev (p : profile) (d : devices) : devices :=
  {| spidev := p; gpio_hw := gpio_hw d; kernel := kernel d;
     received := received d; asked := asked d; trace := trace d |}.
Definition set_gpio_hw (h : Z -> gpio_regs) (d : devices) : devices :=
  {| spidev := spidev d; gpio_hw := h; kernel := kernel d;
     received := received d; asked := asked d; trace := trace d |}.

Definition set_gpio_base (l : list ptr) (s : spi_globals) : spi_globals :=
  {| gpio_base := l; _bits := _bits s; _speed := _speed s; _delay := _delay s;
     _mode := _mode s; fd := fd s; cs_pin := cs_pin s; ds_pin := ds_pin s |}.
Definition set_cs_pin (g : gpio_t) (s : spi_globals) : spi_globals :=
  {| gpio_base := gpio_base s; _bits := _bits s; _speed := _speed s;
     _delay := _delay s; _mode := _mode s; fd := fd s; cs_pin := g;
     ds_pin := ds_pin s |}.
Definition set_ds_pin (g : gpio_t) (s : spi_globals) : spi_globals :=
  {| gpio_base := gpio_base s; _bits := _bits s; _speed := _speed s;
     _delay := _delay s; _mode := _mode s; fd := fd s; cs_pin := cs_pin s;
     ds_pin := g |}.
Definition set_opened (fildes bits speed mode : Z) (s : spi_globals)
    : spi_globals :=
  {| gpio_base := gpio_base s; _bits := bits; _speed := speed;
     _delay := _delay s; _mode := mode; fd := fildes; cs_pin := cs_pin s;
     ds_pin := ds_pin s |}.

Definition set_mux0 (g : gpio_t) (s : i2c_globals) : i2c_globals :=
  {| mux0 := g; mux1 := mux1 s; pins_configured := pins_configured s;
     ext_addr := ext_addr s |}.
Definition set_mux1 (g : gpio_t) (s : i2c_globals) : i2c_globals :=
  {| mux0 := mux0 s; mux1 := g; pins_configured := pins_configured s;
     ext_addr := ext_addr s |}.
Definition set_pins_configured (v : Z) (s : i2c_globals) : i2c_globals :=
  {| mux0 := mux0 s; mux1 := mux1 s; pins_configured := v;
     ext_addr := ext_addr s |}.
Definition set_ext_addr_field (v : Z) (s : i2c_globals) : i2c_globals :=
  {| mux0 := mux0 s; mux1 := mux1 s; pins_configured := pins_configured s;
     ext_addr := v |}.

(** ** The monad of the C code: state, and a crash *)

Definition M (A : Type) : Type := World -> option (A * World).

Definition ret {A} (a : A) : M A := fun w => Some (a, w).
Definition bind {A B} (m : M A) (k : A -> M B) : M B :=
  fun w => match m w with
           | Some (a, w') => k a w'
           | None => None
           end.
Definition crash {A} : M A := fun _ => None.
Definition gets {A} (f : World -> A) : M A := fun w => Some (f w, w).
Definition modify (f : World -> World) : M unit := fun w => Some (tt, f w).
Definition when (b : bool) (m : M unit) : M unit := if b then m else ret tt.

Notation "'let*' x ':=' m 'in' k" := (bind m (fun x => k))
  (at level 10, x name, m at level 100, k at level 200).
Notation "m ;; k" := (bind m (fun _ => k))
  (at level 100, k at level 200, right associativity).

Definition emit (e : event) : M unit := modify (with_dev (log e)).

(** The kernel's answer to the next call that can fail. *)
Definition answer : M Z :=
  let* r := gets (fun w => kernel (dev w) (asked (dev w))) in
  modify (with_dev answered) ;;
  ret r.

(** ** Device calls *)

(** [open(path, ...)]: a descriptor, or -1. *)
Definition sys_open (path : string) : M Z :=
  let* r := answer in
  emit (EvOpen path r) ;;
  ret r.

(** [MAP_FAILED] is [(void * ) -1]. *)
Definition MAP_FAILED : Z := -1.

(** [mmap(NULL, length, ..., MAP_SHARED, mfd, offset)] on /dev/mem: the
    window over the physical address [offset], or [MAP_FAILED]. *)
Definition sys_mmap (length offset : Z) : M (option ptr) :=
  let* r := answer in
  emit (EvMmap length offset r) ;;
  ret (if r =? MAP_FAILED then None else Some (Mapped offset)).

(** A configuration [ioctl] of spidev.  The kernel reads one byte at the
    argument; the code passes the address of an [int], of which the
    little-endian target gives the low byte.  The code ignores the result
    of these calls, and the model takes them to succeed. *)
Definition sys_ioctl (req : spi_ioc) (arg : Z) : M unit :=
  let v := CInt.to_uint8 arg in
  emit (EvIoctl req v) ;;
  modify (with_dev (fun d =>
    let p := spidev d in
    set_spidev
      match req with
      | SPI_IOC_WR_MODE =>
          {| p_mode := v; p_bits := p_bits p; p_speed := p_speed p |}
      | SPI_IOC_WR_BITS_PER_WORD =>
          {| p_mode := p_mode p; p_bits := v; p_speed := p_speed p |}
      end d)).

(** [ioctl(fd, SPI_IOC_MESSAGE(n), &tr)]: the kernel's result, negative
    on failure. *)
Definition sys_message (n : Z) (tr : spi_ioc_transfer) : M Z :=
  let* r := answer in
  emit (EvMessage n tr r) ;;
  ret r.

(** [write(fd, data, count)] and [read(fd, rx, count)] on the SPI device. *)
Definition sys_write (fildes : Z) (data : list Z) (count : Z) : M Z :=
  let* r := answer in
  emit (EvWrite fildes data count r) ;;
  ret r.

Definition sys_read (fildes : Z) (count : Z) : M Z :=
  let* r := answer in
  emit (EvRead fildes count r) ;;
  ret r.

(** What a store of [v] to the 32-bit register at word index [reg] does to
    a GPIO bank of the AM335x: the output-enable and data-out registers
    hold what is written, SETDATAOUT and CLEARDATAOUT set and clear the
    data-out bits that are 1 in [v]. *)
Definition hw_store (reg v : Z) (r : gpio_regs) : gpio_regs :=
  if reg =? Z.quot MMIO_OE_ADDR 4 then
    {| oe := v; dataout := dataout r; datain := datain r |}
  else if reg =? Z.quot MMIO_GPIO_DATAOUT 4 then
    {| oe := oe r; dataout := v; datain := datain r |}
  else if reg =? Z.quot MMIO_GPIO_SETDATAOUT 4 then
    {| oe := oe r; dataout := Z.lor (dataout r) v; datain := datain r |}
  else if reg =? Z.quot MMIO_GPIO_CLEARDATAOUT 4 then
    {| oe := oe r; dataout := Z.ldiff (dataout r) v; datain := datain r |}
  else r.

Definition hw_load (reg : Z) (r : gpio_regs) : Z :=
  if reg =? Z.quot MMIO_OE_ADDR 4 then oe r
  else if reg =? Z.quot MMIO_GPIO_DATAOUT 4 then dataout r
  else if reg =? Z.quot MMIO_GPIO_DATAIN 4 then datain r
  else 0.

Definition update_bank (phys : Z) (f : gpio_regs -> gpio_regs)
    (h : Z -> gpio_regs) : Z -> gpio_regs :=
  fun a => if a =? phys then f (h a) else h a.

(** [p[reg]], a load through a bank pointer; NULL crashes. *)
Definition reg_load (p : ptr) (reg : Z) : M Z :=
  match p with
  | NULL => crash
  | Mapped phys => gets (fun w => hw_load reg (gpio_hw (dev w) phys))
  end.

(** [p[reg] = v]. *)
Definition reg_store (p : ptr) (reg v : Z) : M unit :=
  match p with
  | NULL => crash
  | Mapped phys =>
      emit (EvStore phys reg v) ;;
      modify (with_dev (fun d =>
        set_gpio_hw (update_bank phys (hw_store reg v) (gpio_hw d)) d))
  end.

(** ** The pin driver ([src/spi/common.c], lines 25-73) *)

(** [1 << gpio.number], as the 32-bit word that reaches the register. *)
Definition pin_mask (gpio : gpio_t) : Z :=
  CInt.to_uint32 (Z.shiftl 1 (number gpio)).

Definition mmio_set_output (gpio : gpio_t) : M unit :=
  let* v := reg_load (base gpio) (Z.quot MMIO_OE_ADDR 4) in
  reg_store (base gpio) (Z.quot MMIO_OE_ADDR 4)
    (Z.land v (Z.lxor 0xFFFFFFFF (pin_mask gpio))).


Definition mmio_set_high (gpio : gpio_t) : M unit :=
  reg_store (base gpio) (Z.quot MMIO_GPIO_SETDATAOUT 4) (pin_mask gpio).

Definition mmio_set_low (gpio : gpio_t) : M unit :=
  reg_store (base gpio) (Z.quot MMIO_GPIO_CLEARDATAOUT 4) (pin_mask gpio).

Definition mmio_input (gpio : gpio_t) : M Z :=
  let* v := reg_load (base gpio) (Z.quot MMIO_GPIO_DATAIN 4) in
  ret (Z.land v (pin_mask gpio)).

(** The [gpio_t] globals whose address the code passes to
    [mmio_get_gpio]. *)
Inductive gpio_var : Type :=
| The_cs_pin
| The_ds_pin
| The_mux0
| The_mux1.

Definition deref (x : gpio_var) (w : World) : gpio_t :=
  match x with
  | The_cs_pin => cs_pin (spi w)
  | The_ds_pin => ds_pin (spi w)
  | The_mux0 => mux0 (i2c w)
  | The_mux1 => mux1 (i2c w)
  end.

Definition assign (x : gpio_var) (g : gpio_t) : World -> World :=
  match x with
  | The_cs_pin => with_spi (set_cs_pin g)
  | The_ds_pin => with_spi (set_ds_pin g)
  | The_mux0 => with_i2c (set_mux0 g)
  | The_mux1 => with_i2c (set_mux1 g)
  end.

(** Lines 56-67 of [mmio_get_gpio]: the bank's mapping, made on first use.
    [inl e] is the early [return e]. *)
Definition map_bank (bank : Z) : M (Z + ptr) :=
  let* cached := gets (fun w => gpio_base (spi w) !! Z.to_nat bank) in
  match cached with
  | None => crash
  | Some (Mapped phys) => ret (inr (Mapped phys))
  | Some NULL =>
      let* mfd := sys_open "/dev/mem" in
      if mfd =? -1 then ret (inl MMIO_ERROR_DEVMEM)
      else
        let* m := sys_mmap GPIO_LENGTH
                    (default 0 (gpio_addresses !! Z.to_nat bank)) in
        match m with
        | None =>
            (* the array holds MAP_FAILED, then NULL again *)
            ret (inl MMIO_ERROR_MMAP)
        | Some p =>
            modify (with_spi (fun s =>
              set_gpio_base (<[Z.to_nat bank := p]> (gpio_base s)) s)) ;;
            ret (inr p)
        end
  end.

(** [mmio_get_gpio(&x)].  The address of a global is never NULL, so the
    test of line 50 never fires. *)
Definition mmio_get_gpio (x : gpio_var) : M Z :=
  let* gpio := gets (deref x) in
  let bank := Z.quot (pin gpio) 32 in
  let number := Z.rem (pin gpio) 32 in
  if (bank <? 0) || (bank >? 3) then ret MMIO_ERROR_ARGUMENT
  else if (number <? 0) || (number >? 31) then ret MMIO_ERROR_ARGUMENT
  else
    let* m := map_bank bank in
    match m with
    | inl e => ret e
    | inr p =>
        (* memset(gpio, 0, sizeof( *gpio)) clears [pin] as well *)
        modify (assign x {| pin := 0; base := p; number := number |}) ;;
        ret MMIO_SUCCESS
    end.

(** ** The SPI transport and the module protocol
    ([src/spi/common.c], lines 104-229) *)

(** [ret < 0 ? -1 : 0]. *)
Definition status_of (r : Z) : Z := if r <? 0 then -1 else 0.

Definition spi_transfer (tx : list Z) (len : Z) : M Z :=
  let* s := gets spi in
  let tr := {| tx_buf := tx;
               len := CInt.to_uint32 len;
               delay_usecs := CInt.to_unsigned 16 (_delay s);
               speed_hz := CInt.to_uint32 (_speed s);
               bits_per_word := CInt.to_uint8 (_bits s) |} in
  let* r := sys_message len tr in
  ret (status_of r).

(** Lines 138-141, repeated in [write_data] and [read_data]: the
    controller goes to the module profile, where the payload profile
    differs from it. *)
Definition to_module_profile : M unit :=
  let* s := gets spi in
  when (negb (_mode s =? SPI_MODE_3)) (sys_ioctl SPI_IOC_WR_MODE mod_mode) ;;
  when (negb (_bits s =? 8)) (sys_ioctl SPI_IOC_WR_BITS_PER_WORD mod_bits).

(** Lines 158-161: back to the payload profile. *)
Definition to_payload_profile : M unit :=
  let* s := gets spi in
  when (negb (_mode s =? SPI_MODE_3)) (sys_ioctl SPI_IOC_WR_MODE (_mode s)) ;;
  when (negb (_bits s =? 8)) (sys_ioctl SPI_IOC_WR_BITS_PER_WORD (_bits s)).

Definition spi_mod_comm (tx : list Z) (len : Z) : M Z :=
  to_module_profile ;;
  let* s := gets spi in
  let tr := {| tx_buf := tx;
               len := CInt.to_uint32 len;
               delay_usecs := 0;
               speed_hz := CInt.to_uint32 (_speed s);
               bits_per_word := CInt.to_uint8 mod_bits |} in
  mmio_set_low (ds_pin s) ;;
  let* r := sys_message 1 tr in
  mmio_set_high (ds_pin s) ;;
  to_payload_profile ;;
  ret (status_of r).

Definition select_module (address module : Z) : M Z :=
  spi_mod_comm [select_module_msg address module] 1.

Definition transfer_module (data : list Z) (len : Z) : M Z :=
  spi_mod_comm data len.

Definition write_data (address : Z) (data : list Z) (len : Z) : M Z :=
  select_module address 1 ;;
  to_module_profile ;;
  let* s := gets spi in
  mmio_set_high (cs_pin s) ;;
  mmio_set_low (cs_pin s) ;;
  mmio_set_high (cs_pin s) ;;
  let* r := sys_write (fd s) data len in
  mmio_set_low (cs_pin s) ;;
  to_payload_profile ;;
  ret r.

(** [spi_transfer(buf, buf, 1)] on a [char buf[1]] that holds [b]: the
    transmit buffer is the receive buffer.  The message is the one of
    [spi_transfer]; the result is the byte in the buffer after the call,
    the status being dropped as [read_data], the one caller, drops it. *)
Definition spi_transfer_in_place (b : Z) : M Z :=
  let* n := gets (fun w => asked (dev w)) in
  spi_transfer [b] 1 ;;
  let* b' := gets (fun w => received (dev w) n) in
  ret (CInt.to_char b').

(** [read_data].  [dummy_data] is handed to both dummy transfers, as
    message and as receive buffer: the second sends what the first left in
    it. *)
Definition read_data (address : Z) (len : Z) : M Z :=
  let dummy_data := 0 in
  select_module address 2 ;;
  let* dummy_data := spi_transfer_in_place dummy_data in
  select_module address 3 ;;
  let* dummy_data := spi_transfer_in_place dummy_data in
  to_module_profile ;;
  let* s := gets spi in
  let* r := sys_read (fd s) len in
  to_payload_profile ;;
  ret r.

(** ** The direct demultiplexer and the extender ([src/i2c/common.c]) *)

(** Modelled from the spec: [src/i2c/common.c] calls the pin driver under
    the names [bbb_mmio_get_gpio], [bbb_mmio_set_output], [bbb_mmio_set_high]
    and [bbb_mmio_set_low], which no file of the source declares.  The
    specification has one Register-Bank Mapper and one Digital Pin Driver,
    those of [src/spi/common.c], whose header [src/i2c/common.h] includes. *)
Definition bbb_mmio_get_gpio : gpio_var -> M Z := mmio_get_gpio.
Definition bbb_mmio_set_output : gpio_t -> M unit := mmio_set_output.
Definition bbb_mmio_set_high : gpio_t -> M unit := mmio_set_high.
Definition bbb_mmio_set_low : gpio_t -> M unit := mmio_set_low.

(** [direct_mux(uint8_t id)], lines 28-38. *)
Definition direct_mux (id : Z) : M unit :=
  let* g := gets i2c in
  (if CInt.truth (Z.land (Z.shiftr id 0) 1)
   then bbb_mmio_set_high (mux0 g)
   else bbb_mmio_set_low (mux0 g)) ;;
  (if CInt.truth (Z.land (Z.shiftr id 1) 1)
   then bbb_mmio_set_high (mux1 g)
   else bbb_mmio_set_low (mux1 g)).

(** [direct_ext_mux(uint8_t id)], lines 46-56. *)
Definition direct_ext_mux (id : Z) : M unit :=
  let ext_mux_id := [id] in
  let* g := gets i2c in
  select_module (ext_addr g) 2 ;;
  spi_transfer ext_mux_id 1 ;;
  ret tt.

(** [set_ext_addr(uint8_t addr)], lines 64-69. *)
Definition set_ext_addr (addr : Z) : M Z :=
  if (addr >? 15) || (addr =? 0) then ret (-1)
  else
    modify (with_i2c (set_ext_addr_field addr)) ;;
    ret 0.

(** [unselect_i2c_extender], lines 142-149: the zero frame. *)
Definition unselect_i2c_extender : M unit :=
  spi_mod_comm [0] 1 ;;
  ret tt.

(** [configure_mux], lines 155-168.  [rslt] is an [int8_t]. *)
Definition configure_mux : M Z :=
  let rslt := 0 in
  let* configured := gets (fun w => pins_configured (i2c w)) in
  if CInt.truth (CInt.lnot configured) then
    let* r0 := bbb_mmio_get_gpio The_mux0 in
    let rslt := CInt.to_int8 (Z.lor rslt r0) in
    let* g := gets i2c in
    bbb_mmio_set_output (mux0 g) ;;
    let* r1 := bbb_mmio_get_gpio The_mux1 in
    let rslt := CInt.to_int8 (Z.lor rslt r1) in
    let* g := gets i2c in
    bbb_mmio_set_output (mux0 g) ;;
    modify (with_i2c (set_pins_configured (CInt.lnot rslt))) ;;
    ret rslt
  else ret rslt.

(** ** Routing before a sensor read ([src/bme280/common/common.c]) *)

(** Modelled from the spec: [struct identifier] as [bme_read] uses it.  The
    declaration under [src/i2c/common.h] has no [ext_mux_id]; the
    specification's Channel Identity has a direct-mux id and an
    extender-mux id whose negative values mean that there is no extender
    hop. *)
Record identifier : Type := {
  mux_id : Z;
  ext_mux_id : Z;
  id_fd : Z
}.

(** Lines 78-81 of [bme_read] (and 44-47 of [bme_init]): the route is set
    up, then the vendor driver reads the sensor. *)
Definition bme_read_route (id : identifier) : M unit :=
  direct_mux (mux_id id) ;;
  if ext_mux_id id >=? 0
  then direct_ext_mux (CInt.to_uint8 (ext_mux_id id))
  else ret tt.

(** ** Worlds *)

(** The globals as their initialisers leave them, over given devices. *)
Definition boot (d : devices) : World :=
  {| spi := {| gpio_base := [NULL; NULL; NULL; NULL];
               _bits := 0; _speed := 0; _delay := 0; _mode := 0; fd := 0;
               cs_pin := {| pin := P9_17; base := NULL; number := 0 |};
               ds_pin := {| pin := P9_14; base := NULL; number := 0 |} |};
     i2c := {| mux0 := {| pin := P9_15; base := NULL; number := 0 |};
               mux1 := {| pin := P9_16; base := NULL; number := 0 |};
               pins_configured := 0;
               ext_addr := CInt.to_uint8 (-1) |};
     dev := d |}.

(** Devices after reset: every pin an input, every output latch low, and
    a kernel that answers every call with [r]. *)
Definition reset_devices (r : Z) : devices :=
  {| spidev := {| p_mode := 0; p_bits := 8; p_speed := 0 |};
     gpio_hw := fun _ => {| oe := 0xFFFFFFFF; dataout := 0; datain := 0 |};
     kernel := fun _ => r;
     received := fun _ => 0;
     asked := 0;
     trace := [] |}.

(** The events a computation adds to the trace. *)
Definition events_of {A} (m : M A) (w : World) : option (list event) :=
  match m w with
  | Some (_, w') => Some (drop (length (trace (dev w))) (trace (dev w')))
  | None => None
  end.

(** The transfers on the SPI bus among some events. *)
Definition is_transfer (e : event) : bool :=
  match e with
  | EvMessage _ _ _ | EvWrite _ _ _ _ | EvRead _ _ _ => true
  | _ => false
  end.

Definition transfers (l : list event) : list event :=
  List.filter is_transfer l.

(** ** Reading a trace *)

(** The kernel's answer to the [n]-th next call that can fail. *)
Definition upcoming (w : World) (n : nat) : Z :=
  kernel (dev w) (n + asked (dev w))%nat.

(** The byte that the [n]-th next call leaves in its receive buffer. *)
Definition incoming (w : World) (n : nat) : Z :=
  CInt.to_char (received (dev w) (n + asked (dev w))%nat).

(** The calls of [to_module_profile] and of [to_payload_profile]. *)
Definition module_profile_calls (s : spi_globals) : list event :=
  (if _mode s =? SPI_MODE_3 then [] else [EvIoctl SPI_IOC_WR_MODE 3]) ++
  (if _bits s =? 8 then [] else [EvIoctl SPI_IOC_WR_BITS_PER_WORD 8]).

Definition payload_profile_calls (s : spi_globals) : list event :=
  (if _mode s =? SPI_MODE_3 then []
   else [EvIoctl SPI_IOC_WR_MODE (CInt.to_uint8 (_mode s))]) ++
  (if _bits s =? 8 then []
   else [EvIoctl SPI_IOC_WR_BITS_PER_WORD (CInt.to_uint8 (_bits s))]).

(** A pin driven low or high: the store that does it. *)
Definition drive (phys : Z) (g : gpio_t) (level : bool) : event :=
  EvStore phys
    (Z.quot (if level then MMIO_GPIO_SETDATAOUT else MMIO_GPIO_CLEARDATAOUT) 4)
    (pin_mask g).

(** One control transfer: the single message of [spi_mod_comm], at the
    module profile, between the fall and the rise of the module-select
    pin, which sits in the bank at [phys]. *)
Definition control_transfer (s : spi_globals) (phys : Z) (tx : list Z)
    (len r : Z) : list event :=
  module_profile_calls s ++
  [drive phys (ds_pin s) false;
   EvMessage 1 {| tx_buf := tx; len := CInt.to_uint32 len; delay_usecs := 0;
                  speed_hz := CInt.to_uint32 (_speed s);
                  bits_per_word := 8 |} r;
   drive phys (ds_pin s) true] ++
  payload_profile_calls s.

(** One payload transfer: the message of [spi_transfer]. *)
Definition payload_transfer (s : spi_globals) (tx : list Z) (len r : Z)
    : event :=
  EvMessage len {| tx_buf := tx; len := CInt.to_uint32 len;
                   delay_usecs := CInt.to_unsigned 16 (_delay s);
                   speed_hz := CInt.to_uint32 (_speed s);
                   bits_per_word := CInt.to_uint8 (_bits s) |} r.

(** The controller runs the payload profile the driver remembers. *)
Definition in_sync (w : World) : Prop :=
  p_mode (spidev (dev w)) = CInt.to_uint8 (_mode (spi w)) /\
  p_bits (spidev (dev w)) = CInt.to_uint8 (_bits (spi w)).

(** The demultiplexer pins as [configure_mux] resolves them: GPIO1_16 and
    GPIO1_19. *)
Definition mux_resolved (w : World) : Prop :=
  mux0 (i2c w) = {| pin := 0; base := Mapped GPIO1_ADDR; number := 16 |} /\
  mux1 (i2c w) = {| pin := 0; base := Mapped GPIO1_ADDR; number := 19 |}.

(** The demultiplexer before [configure_mux] ever ran: the two pins as
    their initialisers leave them, the flag down, and bank 1 either not
    mapped yet or mapped where it is. *)
Definition mux_unresolved (w : World) : Prop :=
  mux0 (i2c w) = {| pin := P9_15; base := NULL; number := 0 |} /\
  mux1 (i2c w) = {| pin := P9_16; base := NULL; number := 0 |} /\
  pins_configured (i2c w) = 0 /\
  (gpio_base (spi w) !! 1%nat = Some NULL \/
   gpio_base (spi w) !! 1%nat = Some (Mapped GPIO1_ADDR)).

(** The world after the store [p[reg] = v] through a pointer to the bank
    at [phys]. *)
Definition stored (phys reg v : Z) (w : World) : World :=
  with_dev (fun d =>
    set_gpio_hw (update_bank phys (hw_store reg v) (gpio_hw d)) d)
    (with_dev (log (EvStore phys reg v)) w).

(** Lines 91-95 of [spi_open]: the chip-select and module-select pins. *)
Definition spi_open_pins : M unit :=
  mmio_get_gpio The_cs_pin ;;
  mmio_get_gpio The_ds_pin ;;
  let* s := gets spi in
  mmio_set_output (cs_pin s) ;;
  mmio_set_output (ds_pin s).

(** A world to run the code in: the program after [spi_open] on
    descriptor 3, with a payload profile of mode 0 and 16 bits per word at
    1 MHz, the extender address set to 3 and the demultiplexer
    configured; the kernel answers [r] to every call from then on. *)
Definition payload_world (r : Z) : World :=
  let d := {| spidev := {| p_mode := 0; p_bits := 16; p_speed := 1000000 |};
              gpio_hw := gpio_hw (reset_devices 0);
              kernel := fun n => if (n <? 4)%nat then 0 else r;
              received := fun _ => 0;
              asked := 0; trace := [] |} in
  let w := with_spi (set_opened 3 16 1000000 0) (boot d) in
  match (spi_open_pins ;; set_ext_addr 3 ;; configure_mux) w with
  | Some (_, w') => w'
  | None => w
  end.

(** What the layout asks of the frame of one address and one module. *)
Definition frame_ok (address module : Z) : bool :=
  let f := select_module_msg address module in
  (f =? Z.lor (Z.shiftl (Z.lor (Z.shiftl (calculate_parity address) 4)
                               address) 3) module)
  && (calculate_parity address =? Frame.even_parity address)
  && (default (-1) (Frame.parity_table !! Z.to_nat address)
      =? Frame.even_parity address)
  && (Frame.parity_bit f =? Frame.even_parity address)
  && (Frame.board_address f =? address)
  && (Frame.module f =? module).

(** What C2 asks of the selection of module [module] at [address]: an
    invalid-argument result and no transfer. *)
Definition rejected_before_transfer (address module : Z) (w : World) : Prop :=
  fst <$> select_module address module w = Some (-1) /\
  transfers <$> events_of (select_module address module) w = Some [].

(** ** Further reading of the code *)

(** The exclusive or of the bits 0..[n]-1 of [x]. *)
Fixpoint xor_bits (x : Z) (n : nat) : bool :=
  match n with
  | O => false
  | S k => xorb (Z.testbit x (Z.of_nat k)) (xor_bits x k)
  end.

(** The bits of a word, read through the registers of a bank. *)
Definition oe_bit (w : World) (phys n : Z) : bool :=
  Z.testbit (oe (gpio_hw (dev w) phys)) n.
Definition latch_bit (w : World) (phys n : Z) : bool :=
  Z.testbit (dataout (gpio_hw (dev w) phys)) n.

(** The check a receiver makes on a frame: the parity bit and the four
    address bits hold an even number of ones. *)
Definition frame_parity_ok (address module : Z) : bool :=
  let f := select_module_msg address module in
  (calculate_parity (Z.shiftr f 3) =? 0)
  && ((Frame.parity_bit f + Frame.ones4 (Frame.board_address f)) mod 2 =? 0).

(** The calls a client makes to the transport and to the routing, and a
    program of such calls. *)
Inductive driver_call : Type :=
| CallSpiTransfer (tx : list Z) (len : Z)
| CallSpiModComm (tx : list Z) (len : Z)
| CallSelectModule (address module : Z)
| CallTransferModule (data : list Z) (len : Z)
| CallWriteData (address : Z) (data : list Z) (len : Z)
| CallReadData (address len : Z)
| CallUnselect
| CallDirectMux (id : Z)
| CallDirectExtMux (id : Z)
| CallSetExtAddr (addr : Z)
| CallRoute (id : identifier).

Definition run_call (c : driver_call) : M unit :=
  match c with
  | CallSpiTransfer tx len => spi_transfer tx len ;; ret tt
  | CallSpiModComm tx len => spi_mod_comm tx len ;; ret tt
  | CallSelectModule address module => select_module address module ;; ret tt
  | CallTransferModule data len => transfer_module data len ;; ret tt
  | CallWriteData address data len => write_data address data len ;; ret tt
  | CallReadData address len => read_data address len ;; ret tt
  | CallUnselect => unselect_i2c_extender
  | CallDirectMux id => direct_mux id
  | CallDirectExtMux id => direct_ext_mux id
  | CallSetExtAddr addr => set_ext_addr addr ;; ret tt
  | CallRoute id => bme_read_route id
  end.

Fixpoint run_calls (l : list driver_call) : M unit :=
  match l with
  | [] => ret tt
  | c :: l' => run_call c ;; run_calls l'
  end.

(** A computation that, started on the payload profile, ends on it, and
    leaves the globals of the transport alone. *)
Definition keeps_profile {A} (m : M A) : Prop :=
  forall w r w',
    in_sync w -> m w = Some (r, w') ->
    spidev (dev w') = spidev (dev w) /\ spi w' = spi w.

(** ** The I2C character device ([src/i2c/common.c], lines 87-136 and
    178-187)

    [i2c_read], [i2c_write] and [i2c_open] use none of the globals above:
    their state is the descriptor they are given and the kernel behind it.
    They are embedded with explicit state passing over the calls they make
    and the answers they get. *)

Module I2C.

(** The system calls of the three functions, with their results. *)
Inductive call : Type :=
| Open (path : string) (ret : Z)
| IoctlSlave (fildes addr : Z) (ret : Z)
| Write (fildes : Z) (buf : list Z) (count : Z) (ret : Z)
| Read (fildes : Z) (count : Z) (ret : Z).

(** The kernel: [answers n] is its result for the [n]-th call; [made]
    counts the calls, [calls] lists them. *)
Record bus : Type := {
  answers : nat -> Z;
  made : nat;
  calls : list call
}.

(** One system call: its result, and the bus after it. *)
Definition syscall (c : Z -> call) (b : bus) : Z * bus :=
  let r := answers b (made b) in
  (r, {| answers := answers b; made := S (made b);
         calls := calls b ++ [c r] |}).

(** [i2c_open(&fd, addr)]: the result, the value left in [*fd] (an
    [int8_t]), and the bus. *)
Definition i2c_open (fd addr : Z) (b : bus) : Z * Z * bus :=
  if CInt.truth (CInt.lnot fd) then
    let '(r, b) := syscall (Open "/dev/i2c-2") b in
    let fd := CInt.to_int8 r in
    if fd <? 0 then (-2, fd, b)
    else
      let '(r, b) := syscall (IoctlSlave fd addr) b in
      if r <? 0 then (-2, fd, b) else (0, fd, b)
  else (0, fd, b).

(** [i2c_read(reg_addr, reg_data, length, &id)].  What [read] stores in
    [reg_data] is not modelled. *)
Definition i2c_read (reg_addr length : Z) (id : identifier) (b : bus)
    : Z * bus :=
  let b :=
    if CInt.truth reg_addr
    then snd (syscall (Write (id_fd id) [reg_addr] 1) b)
    else b in
  let '(r, b) := syscall (Read (id_fd id) length) b in
  ((if r <? 0 then -1 else 0), b).

(** [i2c_write(reg_addr, reg_data, length, &id)].  [buf] is the content of
    the [length + address_offset] bytes that [malloc] returned, [reg_data]
    holding at least [length] bytes; the count handed to [write] is
    [length + 1] in both cases, in [uint32_t] arithmetic. *)
Definition i2c_write (reg_addr : Z) (reg_data : list Z) (length : Z)
    (id : identifier) (b : bus) : Z * bus :=
  let address_offset := if CInt.truth reg_addr then 1 else 0 in
  let buf :=
    (if CInt.truth address_offset then [reg_addr] else [])
    ++ take (Z.to_nat length) reg_data in
  let '(r, b) :=
    syscall (Write (id_fd id) buf (CInt.to_uint32 (length + 1))) b in
  if r <? CInt.to_unsigned 16 length then (-2, b) else (0, b).

End I2C.

(** ** Proof automation *)

(** Unfolding of the device calls and of the state operations. *)
Ltac unfold_calls :=
  unfold sys_open, sys_mmap, sys_ioctl, sys_message, sys_write, sys_read,
    reg_load, reg_store, answer, emit, when, modify, gets, ret, bind, crash.

(** Unfolding of the SPI layer and of the descriptions of its traces. *)
Ltac unfold_spi :=
  unfold events_of, select_module, transfer_module,
    spi_transfer_in_place, spi_transfer, spi_mod_comm,
    to_module_profile, to_payload_profile,
    mmio_set_low, mmio_set_high, control_transfer, payload_transfer, drive,
    module_profile_calls, payload_profile_calls, upcoming, incoming.

(** Reduction of the accesses to the state, and of nothing else. *)
Ltac red_state :=
  cbv beta iota zeta delta
    [spi i2c dev gpio_base _bits _speed _delay _mode fd cs_pin ds_pin
     mux0 mux1 pins_configured ext_addr spidev gpio_hw kernel received asked
     trace
     with_dev with_spi with_i2c log answered set_spidev set_gpio_hw
     set_gpio_base set_cs_pin set_ds_pin set_mux0 set_mux1
     set_pins_configured set_ext_addr_field deref assign
     base pin number p_mode p_bits p_speed negb Nat.add fst snd].

(** The four ways the payload profile compares with the module profile. *)
Ltac split_profile mode bits :=
  let Hm := fresh "Hm" in
  let Hb := fresh "Hb" in
  destruct (mode =? SPI_MODE_3) eqn:Hm; destruct (bits =? 8) eqn:Hb;
  repeat (red_state; rewrite ?Hm, ?Hb).

(** The trace of the goal, flattened. *)
Ltac flatten_trace :=
  rewrite <- ?app_assoc; rewrite ?drop_app_length; cbn [app];
  change (CInt.to_uint8 mod_bits) with 8.

(** Unfolding of the demultiplexer layer. *)
Ltac unfold_mux :=
  unfold bme_read_route, direct_ext_mux, direct_mux, bbb_mmio_set_high,
    bbb_mmio_set_low, bbb_mmio_set_output, bbb_mmio_get_gpio.

(** The tests on closed integers, decided. *)
Ltac eval_truth :=
  repeat match goal with
  | |- context [CInt.truth ?x] =>
      let v := eval vm_compute in (CInt.truth x) in
      change (CInt.truth x) with v
  end.

(** The worlds of a goal, field by field. *)
Ltac destruct_world w :=
  let gb := fresh "gb" in let bits := fresh "bits" in
  let speed := fresh "speed" in let delay := fresh "delay" in
  let mode := fresh "mode" in let fildes := fresh "fildes" in
  let cs := fresh "cs" in let ds := fresh "ds" in
  let g := fresh "g" in let pm := fresh "pm" in let pb := fresh "pb" in
  let ps := fresh "ps" in let hw := fresh "hw" in let k := fresh "k" in
  let rx := fresh "rx" in let a := fresh "a" in let t := fresh "t" in
  destruct w as [[gb bits speed delay mode fildes cs ds] g
                   [[pm pb ps] hw k rx a t]].

(** The profile brackets of [read_data] and [write_data], run to the
    end. *)
Ltac run_bracketed mode bits :=
  unfold_spi; unfold_calls;
  split_profile mode bits;
  try discriminate;
  (intros H; injection H as <- <-; auto).

(** * Properties *)

(** ** The monad *)

Lemma bind_Some {A B} (m : M A) (k : A -> M B) w a w' :
  m w = Some (a, w') -> bind m k w = k a w'.
Proof. unfold bind. intros ->. reflexivity. Qed.

Lemma events_of_Some {A} (m : M A) w a w' evs :
  m w = Some (a, w') ->
  trace (dev w') = trace (dev w) ++ evs ->
  events_of m w = Some evs.
Proof.
  unfold events_of. intros -> ->. by rewrite drop_app_length.
Qed.

Lemma bind_gets {A B} (f : World -> A) (k : A -> M B) w :
  bind (gets f) k w = k (f w) w.
Proof. reflexivity. Qed.

Lemma bind_modify {B} (f : World -> World) (k : unit -> M B) w :
  bind (modify f) k w = k tt (f w).
Proof. reflexivity. Qed.

Lemma bind_None {A B} (m : M A) (k : A -> M B) w :
  m w = None -> bind m k w = None.
Proof. unfold bind. intros ->. reflexivity. Qed.

(** ** Steps of the pin driver *)

(** The bank of a pin is cached: nothing is opened, nothing is mapped. *)
Lemma map_bank_cached w bank phys :
  gpio_base (spi w) !! Z.to_nat bank = Some (Mapped phys) ->
  map_bank bank w = Some (inr (Mapped phys), w).
Proof. intros H. unfold map_bank, bind, gets. rewrite H. reflexivity. Qed.

(** The bank is not mapped yet: /dev/mem is opened, the bank mapped and
    cached, unless the kernel refuses one or the other. *)
Lemma map_bank_uncached w bank :
  gpio_base (spi w) !! Z.to_nat bank = Some NULL ->
  map_bank bank w =
    let w1 :=
      with_dev (log (EvOpen "/dev/mem" (upcoming w 0))) (with_dev answered w) in
    if upcoming w 0 =? -1 then Some (inl MMIO_ERROR_DEVMEM, w1)
    else
      let addr := default 0 (gpio_addresses !! Z.to_nat bank) in
      let w2 :=
        with_dev (log (EvMmap GPIO_LENGTH addr (upcoming w 1)))
          (with_dev answered w1) in
      if upcoming w 1 =? MAP_FAILED then Some (inl MMIO_ERROR_MMAP, w2)
      else Some (inr (Mapped addr),
                 with_spi (fun s =>
                   set_gpio_base
                     (<[Z.to_nat bank := Mapped addr]> (gpio_base s)) s)
                   w2).
Proof.
  intros H. unfold map_bank, bind at 1, gets at 1. rewrite H.
  destruct w as [s g [p hw k rx a t]].
  unfold upcoming. unfold_calls. red_state.
  destruct (k a =? -1) eqn:Hopen; [reflexivity|].
  red_state. rewrite ?Hopen.
  destruct (k (S a) =? MAP_FAILED) eqn:Hmap; red_state; rewrite ?Hmap;
    reflexivity.
Qed.

(** [mmio_get_gpio] on a pin number in 0..127: the validation passes. *)
Lemma mmio_get_gpio_valid x w :
  0 <= pin (deref x w) < 128 ->
  mmio_get_gpio x w =
    (let* m := map_bank (Z.quot (pin (deref x w)) 32) in
     match m with
     | inl e => ret e
     | inr p =>
         modify (assign x {| pin := 0; base := p;
                             number := Z.rem (pin (deref x w)) 32 |}) ;;
         ret MMIO_SUCCESS
     end) w.
Proof.
  intros H. unfold mmio_get_gpio. unfold bind at 1, gets at 1.
  pose proof (Z.quot_pos (pin (deref x w)) 32).
  pose proof (Z.quot_lt_upper_bound (pin (deref x w)) 32 4).
  pose proof (Z.rem_bound_pos (pin (deref x w)) 32).
  replace ((Z.quot (pin (deref x w)) 32 <? 0)
           || (Z.quot (pin (deref x w)) 32 >? 3)) with false.
  2:{ symmetry. apply orb_false_iff. rewrite Z.gtb_ltb, !Z.ltb_ge. lia. }
  replace ((Z.rem (pin (deref x w)) 32 <? 0)
           || (Z.rem (pin (deref x w)) 32 >? 31)) with false.
  2:{ symmetry. apply orb_false_iff. rewrite Z.gtb_ltb, !Z.ltb_ge. lia. }
  reflexivity.
Qed.

(** A store through the NULL pointer of an unresolved pin crashes. *)
Lemma mmio_set_output_null g w : base g = NULL -> mmio_set_output g w = None.
Proof. intros H. unfold mmio_set_output, reg_load, bind. by rewrite H. Qed.

Lemma mmio_set_output_mapped g w phys :
  base g = Mapped phys ->
  mmio_set_output g w =
    Some (tt, stored phys (Z.quot MMIO_OE_ADDR 4)
                (Z.land (oe (gpio_hw (dev w) phys))
                        (Z.lxor 0xFFFFFFFF (pin_mask g))) w).
Proof. intros H. unfold mmio_set_output. rewrite H. reflexivity. Qed.

(** ** The frame *)

Lemma frame_ok_table :
  forallb (fun a => forallb (frame_ok a) (seqZ 0 8)) (seqZ 1 15) = true.
Proof. vm_compute. reflexivity. Qed.

Lemma frame_ok_in_range address module :
  1 <= address <= 15 -> 0 <= module <= 7 -> frame_ok address module = true.
Proof.
  intros Ha Hm.
  pose proof frame_ok_table as H.
  rewrite forallb_forall in H.
  specialize (H address). rewrite forallb_forall in H.
  apply H; apply list_elem_of_In, elem_of_seqZ; lia.
Qed.

Lemma frame_ok_fields address module :
  1 <= address <= 15 -> 0 <= module <= 7 ->
  select_module_msg address module =
    Z.lor (Z.shiftl (Z.lor (Z.shiftl (calculate_parity address) 4) address) 3)
          module /\
  calculate_parity address = Frame.even_parity address /\
  Frame.parity_table !! Z.to_nat address
    = Some (Frame.even_parity address) /\
  Frame.parity_bit (select_module_msg address module)
    = Frame.even_parity address /\
  Frame.board_address (select_module_msg address module) = address /\
  Frame.module (select_module_msg address module) = module.
Proof.
  intros Ha Hm.
  generalize (frame_ok_in_range address module Ha Hm).
  unfold frame_ok. cbv zeta. rewrite !andb_true_iff, !Z.eqb_eq.
  intros (((((H1 & H2) & H3) & H4) & H5) & H6).
  repeat split; try assumption.
  destruct (Frame.parity_table !! Z.to_nat address) as [v|].
  - f_equal. exact H3.
  - exfalso. unfold default in H3. unfold Frame.even_parity in H3.
    pose proof (Z.mod_pos_bound (Frame.ones4 address) 2). lia.
Qed.

(** The low three bits of a frame are the module, whatever the
    address. *)
Lemma frame_module address module :
  0 <= module <= 7 ->
  Frame.module (select_module_msg address module) = module.
Proof.
  intros Hm. unfold Frame.module, select_module_msg.
  unfold CInt.to_char, CInt.to_ulong, CInt.to_unsigned.
  set (a := (Z.lor (Z.shiftl (calculate_parity address) 4) address) mod 2 ^ 32).
  change 7 with (Z.ones 3). rewrite Z.land_ones by lia.
  rewrite !Z.mod_mod_divide.
  - rewrite (Z.mod_small module) by lia.
    rewrite <- Z.land_ones by lia.
    rewrite Z.land_lor_distr_l.
    rewrite !Z.land_ones by lia.
    rewrite Z.shiftl_mul_pow2 by lia.
    rewrite Z.mod_mul by lia.
    rewrite Z.lor_0_l. apply Z.mod_small. lia.
  - exists (2 ^ 29). reflexivity.
  - exists (2 ^ 5). reflexivity.
Qed.

(** ** A control transfer *)

(** [spi_mod_comm] always returns when the module-select pin is resolved:
    it issues one control transfer, reports the status of its message, and
    leaves the globals alone. *)
Lemma spi_mod_comm_runs w tx n phys :
  base (ds_pin (spi w)) = Mapped phys ->
  exists w',
    spi_mod_comm tx n w = Some (status_of (upcoming w 0), w') /\
    trace (dev w') =
      trace (dev w) ++ control_transfer (spi w) phys tx n (upcoming w 0) /\
    spi w' = spi w /\ i2c w' = i2c w /\
    (in_sync w -> spidev (dev w') = spidev (dev w)).
Proof.
  destruct w as [s g d]. destruct s as [gb bits speed delay mode fildes cs ds].
  destruct d as [p hw k rx a t]. destruct p as [pm pb ps].
  destruct ds as [dp db dn].
  cbn. intros ->.
  unfold_spi. unfold in_sync. unfold_calls.
  split_profile mode bits;
    (eexists; split; [reflexivity|]); red_state; flatten_trace.
  all: repeat split; try reflexivity.
  all: intros [H1 H2]; subst; reflexivity.
Qed.

Lemma transfers_control_transfer s phys tx n r :
  transfers (control_transfer s phys tx n r) =
    [EvMessage 1 {| tx_buf := tx; len := CInt.to_uint32 n; delay_usecs := 0;
                    speed_hz := CInt.to_uint32 (_speed s);
                    bits_per_word := 8 |} r].
Proof.
  unfold control_transfer, module_profile_calls, payload_profile_calls.
  destruct (_mode s =? SPI_MODE_3), (_bits s =? 8); reflexivity.
Qed.

(** C1. For every board address in 1..15 and every module in 0..7,
    [select_module] sends one control transfer whose single byte is
    [((parity << 4 | address) << 3) | module], where [parity] is the
    even-parity bit of the address (as the XOR fold computes it and as the
    reference table lists it): bit 7 of the frame is that parity bit, the
    next four bits are the address and the low three bits the module. *)
Theorem select_module_frame_layout (w : World) (address module phys : Z) :
  1 <= address <= 15 ->
  0 <= module <= 7 ->
  base (ds_pin (spi w)) = Mapped phys ->
  events_of (select_module address module) w =
    Some (control_transfer (spi w) phys [select_module_msg address module] 1
            (upcoming w 0)) /\
  select_module_msg address module =
    Z.lor (Z.shiftl (Z.lor (Z.shiftl (calculate_parity address) 4) address) 3)
          module /\
  calculate_parity address = Frame.even_parity address /\
  Frame.parity_table !! Z.to_nat address = Some (Frame.even_parity address) /\
  Frame.parity_bit (select_module_msg address module)
    = Frame.even_parity address /\
  Frame.board_address (select_module_msg address module) = address /\
  Frame.module (select_module_msg address module) = module.
Proof.
  intros Ha Hm Hds.
  split.
  - destruct (spi_mod_comm_runs w [select_module_msg address module] 1 phys Hds)
      as (w' & Hrun & Htrace & _).
    exact (events_of_Some _ _ _ _ _ Hrun Htrace).
  - destruct (frame_ok_fields address module Ha Hm)
      as (Hmsg & Hpar & Htab & Hbit & Haddr & Hmod).
    auto 7.
Qed.

Lemma select_module_frame_layout_witness :
  (1 <= 11 <= 15) /\ (0 <= 5 <= 7) /\
  events_of (select_module 11 5) (payload_world 0) =
    Some (control_transfer (spi (payload_world 0)) GPIO1_ADDR
            [select_module_msg 11 5] 1 (upcoming (payload_world 0) 0)) /\
  Frame.parity_bit (select_module_msg 11 5) = Frame.even_parity 11 /\
  Frame.board_address (select_module_msg 11 5) = 11 /\
  Frame.module (select_module_msg 11 5) = 5.
Proof.
  assert (Ha : 1 <= 11 <= 15) by lia.
  assert (Hm : 0 <= 5 <= 7) by lia.
  assert (Hds : base (ds_pin (spi (payload_world 0))) = Mapped GPIO1_ADDR)
    by reflexivity.
  pose proof (select_module_frame_layout (payload_world 0) 11 5 GPIO1_ADDR
                Ha Hm Hds) as H.
  repeat split; try lia; apply H.
Defined.

(** ** The address guard *)

(** C2, as stated, fails: [select_module] does not look at the address.
    With address 0, and with address 16, it sends the frame and returns the
    status of the transfer, here 0. *)
Lemma select_module_reserved_address_counterexample :
  fst <$> select_module 0 5 (payload_world 0) = Some 0 /\
  transfers <$> events_of (select_module 0 5) (payload_world 0) =
    Some [EvMessage 1 {| tx_buf := [5]; len := 1; delay_usecs := 0;
                         speed_hz := 1000000; bits_per_word := 8 |} 0] /\
  fst <$> select_module 16 5 (payload_world 0) = Some 0 /\
  transfers <$> events_of (select_module 16 5) (payload_world 0) =
    Some [EvMessage 1 {| tx_buf := [133]; len := 1; delay_usecs := 0;
                         speed_hz := 1000000; bits_per_word := 8 |} 0] /\
  ~ rejected_before_transfer 0 5 (payload_world 0) /\
  ~ rejected_before_transfer 16 5 (payload_world 0).
Proof.
  repeat split; try (vm_compute; reflexivity).
  - intros [H _]. vm_compute in H. discriminate.
  - intros [H _]. vm_compute in H. discriminate.
Qed.

(** C2, amended.  The range check on the board address is in
    [set_ext_addr]: an address that is 0 or above 15 is refused there with
    -1, nothing is sent and no state changes.  [select_module] itself takes
    any address: it always issues exactly one control transfer and returns
    the status of that transfer. *)
Theorem address_guard_is_at_configuration (w : World)
    (address module phys : Z) :
  base (ds_pin (spi w)) = Mapped phys ->
  (address = 0 \/ 15 < address -> set_ext_addr address w = Some (-1, w)) /\
  fst <$> select_module address module w = Some (status_of (upcoming w 0)) /\
  transfers <$> events_of (select_module address module) w =
    Some [EvMessage 1 {| tx_buf := [select_module_msg address module];
                         len := 1; delay_usecs := 0;
                         speed_hz := CInt.to_uint32 (_speed (spi w));
                         bits_per_word := 8 |} (upcoming w 0)].
Proof.
  intros Hds. split; [|].
  - intros H. unfold set_ext_addr.
    replace ((address >? 15) || (address =? 0)) with true; [reflexivity|].
    symmetry. apply orb_true_iff. rewrite Z.gtb_lt, Z.eqb_eq. lia.
  - destruct (spi_mod_comm_runs w [select_module_msg address module] 1 phys Hds)
      as (w' & Hrun & Htrace & _).
    unfold select_module.
    rewrite (events_of_Some _ _ _ _ _ Hrun Htrace), Hrun. cbn.
    split; [reflexivity|].
    by rewrite transfers_control_transfer.
Qed.

Lemma address_guard_is_at_configuration_witness :
  (0 = 0 \/ 15 < 0) /\
  set_ext_addr 0 (payload_world 0) = Some (-1, payload_world 0) /\
  fst <$> select_module 0 5 (payload_world 0) =
    Some (status_of (upcoming (payload_world 0) 0)).
Proof.
  assert (Hds : base (ds_pin (spi (payload_world 0))) = Mapped GPIO1_ADDR)
    by reflexivity.
  assert (H0 : 0 = 0 \/ 15 < 0) by (left; reflexivity).
  pose proof (address_guard_is_at_configuration (payload_world 0) 0 5
                GPIO1_ADDR Hds) as (Hset & Hsel & _).
  split; [exact H0|]. split; [exact (Hset H0)|exact Hsel].
Defined.

(** ** The profile around a control transfer *)

(** C3. Whatever payload profile the controller runs (the one the driver
    remembers in [_mode] and [_bits]) and whatever the kernel answers to
    the bracketed message, [r], success or failure, [spi_mod_comm] returns
    with the controller on the profile it had before the call: the calls
    that restore the payload profile close the trace, and they do not
    depend on [r]. *)
Theorem spi_mod_comm_restores_profile (w : World) (tx : list Z)
    (n phys r : Z) :
  base (ds_pin (spi w)) = Mapped phys ->
  in_sync w ->
  upcoming w 0 = r ->
  exists w',
    spi_mod_comm tx n w = Some ((if r <? 0 then -1 else 0), w') /\
    spidev (dev w') = spidev (dev w) /\
    in_sync w' /\
    trace (dev w') =
      trace (dev w) ++
      (module_profile_calls (spi w) ++
       [drive phys (ds_pin (spi w)) false;
        EvMessage 1 {| tx_buf := tx; len := CInt.to_uint32 n;
                       delay_usecs := 0;
                       speed_hz := CInt.to_uint32 (_speed (spi w));
                       bits_per_word := 8 |} r;
        drive phys (ds_pin (spi w)) true]) ++
      payload_profile_calls (spi w).
Proof.
  intros Hds Hsync <-.
  destruct (spi_mod_comm_runs w tx n phys Hds)
    as (w' & Hrun & Htrace & Hspi & _ & Hprofile).
  exists w'. split; [exact Hrun|].
  split; [exact (Hprofile Hsync)|].
  split.
  - unfold in_sync in *. rewrite Hspi, (Hprofile Hsync). exact Hsync.
  - rewrite Htrace. unfold control_transfer. by rewrite <- app_assoc.
Qed.

Lemma spi_mod_comm_restores_profile_witness :
  in_sync (payload_world (-1)) /\
  upcoming (payload_world (-1)) 0 = -1 /\
  exists w',
    spi_mod_comm [0] 1 (payload_world (-1)) = Some (-1, w') /\
    spidev (dev w') = {| p_mode := 0; p_bits := 16; p_speed := 1000000 |}.
Proof.
  assert (Hds : base (ds_pin (spi (payload_world (-1)))) = Mapped GPIO1_ADDR)
    by reflexivity.
  assert (Hsync : in_sync (payload_world (-1))) by (split; reflexivity).
  assert (Hr : upcoming (payload_world (-1)) 0 = -1) by reflexivity.
  split; [exact Hsync|]. split; [exact Hr|].
  destruct (spi_mod_comm_restores_profile (payload_world (-1)) [0] 1
              GPIO1_ADDR (-1) Hds Hsync Hr) as (w' & Hrun & Hprofile & _).
  exists w'. split; [exact Hrun|exact Hprofile].
Defined.

(** ** Priming the extender *)

Lemma read_data_events w address n phys :
  base (ds_pin (spi w)) = Mapped phys ->
  events_of (read_data address n) w =
    Some (control_transfer (spi w) phys [select_module_msg address 2] 1
            (upcoming w 0) ++
          [payload_transfer (spi w) [0] 1 (upcoming w 1)] ++
          control_transfer (spi w) phys [select_module_msg address 3] 1
            (upcoming w 2) ++
          [payload_transfer (spi w) [incoming w 1] 1 (upcoming w 3)] ++
          module_profile_calls (spi w) ++
          [EvRead (fd (spi w)) n (upcoming w 4)] ++
          payload_profile_calls (spi w)).
Proof.
  destruct w as [s g d]. destruct s as [gb bits speed delay mode fildes cs ds].
  destruct d as [p hw k rx a t]. destruct p as [pm pb ps].
  destruct ds as [dp db dn].
  cbn. intros ->.
  unfold read_data. unfold_spi. unfold_calls.
  split_profile mode bits; flatten_trace; reflexivity.
Qed.

Lemma write_data_events w address data n phys cphys :
  base (ds_pin (spi w)) = Mapped phys ->
  base (cs_pin (spi w)) = Mapped cphys ->
  events_of (write_data address data n) w =
    Some (control_transfer (spi w) phys [select_module_msg address 1] 1
            (upcoming w 0) ++
          module_profile_calls (spi w) ++
          [drive cphys (cs_pin (spi w)) true;
           drive cphys (cs_pin (spi w)) false;
           drive cphys (cs_pin (spi w)) true;
           EvWrite (fd (spi w)) data n (upcoming w 1);
           drive cphys (cs_pin (spi w)) false] ++
          payload_profile_calls (spi w)).
Proof.
  destruct w as [s g d]. destruct s as [gb bits speed delay mode fildes cs ds].
  destruct d as [p hw k rx a t]. destruct p as [pm pb ps].
  destruct ds as [dp db dn]. destruct cs as [cp cb cn].
  cbn. intros -> ->.
  unfold write_data. unfold_spi. unfold_calls.
  split_profile mode bits; flatten_trace; reflexivity.
Qed.

(** C6. [read_data] returns, and what it does on the bus is exactly: a
    control transfer whose frame selects module 2, one dummy payload
    transfer, a control transfer whose frame selects module 3, one dummy
    payload transfer, and then the read of the payload.  The first dummy
    sends the byte 0; the second sends the byte that the first left in
    [dummy_data], which is its receive buffer too.  [write_data] starts
    with a control transfer whose frame selects module 1, and writes the
    payload after it. *)
Theorem read_write_data_priming (w : World) (address : Z) (data : list Z)
    (n phys cphys : Z) :
  base (ds_pin (spi w)) = Mapped phys ->
  base (cs_pin (spi w)) = Mapped cphys ->
  (events_of (read_data address n) w =
     Some (control_transfer (spi w) phys [select_module_msg address 2] 1
             (upcoming w 0) ++
           [payload_transfer (spi w) [0] 1 (upcoming w 1)] ++
           control_transfer (spi w) phys [select_module_msg address 3] 1
             (upcoming w 2) ++
           [payload_transfer (spi w) [incoming w 1] 1 (upcoming w 3)] ++
           module_profile_calls (spi w) ++
           [EvRead (fd (spi w)) n (upcoming w 4)] ++
           payload_profile_calls (spi w)) /\
   Frame.module (select_module_msg address 2) = 2 /\
   Frame.module (select_module_msg address 3) = 3) /\
  (events_of (write_data address data n) w =
     Some (control_transfer (spi w) phys [select_module_msg address 1] 1
             (upcoming w 0) ++
           module_profile_calls (spi w) ++
           [drive cphys (cs_pin (spi w)) true;
            drive cphys (cs_pin (spi w)) false;
            drive cphys (cs_pin (spi w)) true;
            EvWrite (fd (spi w)) data n (upcoming w 1);
            drive cphys (cs_pin (spi w)) false] ++
           payload_profile_calls (spi w)) /\
   Frame.module (select_module_msg address 1) = 1).
Proof.
  intros Hds Hcs. repeat split.
  - exact (read_data_events w address n phys Hds).
  - apply frame_module. lia.
  - apply frame_module. lia.
  - exact (write_data_events w address data n phys cphys Hds Hcs).
  - apply frame_module. lia.
Qed.

Lemma read_write_data_priming_witness :
  transfers <$>
    events_of (read_data 3 4)
      (with_dev (fun d => {| spidev := spidev d; gpio_hw := gpio_hw d;
                             kernel := kernel d;
                             received := fun _ => 165;
                             asked := asked d; trace := trace d |})
         (payload_world 0)) =
    Some [EvMessage 1 {| tx_buf := [26]; len := 1; delay_usecs := 0;
                         speed_hz := 1000000; bits_per_word := 8 |} 0;
          EvMessage 1 {| tx_buf := [0]; len := 1; delay_usecs := 0;
                         speed_hz := 1000000; bits_per_word := 16 |} 0;
          EvMessage 1 {| tx_buf := [27]; len := 1; delay_usecs := 0;
                         speed_hz := 1000000; bits_per_word := 8 |} 0;
          EvMessage 1 {| tx_buf := [165]; len := 1; delay_usecs := 0;
                         speed_hz := 1000000; bits_per_word := 16 |} 0;
          EvRead 3 4 0] /\
  Frame.module 26 = 2 /\ Frame.module 27 = 3.
Proof.
  destruct (read_write_data_priming
              (with_dev (fun d => {| spidev := spidev d; gpio_hw := gpio_hw d;
                                     kernel := kernel d;
                                     received := fun _ => 165;
                                     asked := asked d; trace := trace d |})
                 (payload_world 0)) 3 [7] 4
              GPIO1_ADDR GPIO0_ADDR eq_refl eq_refl)
    as ((Hread & H2 & H3) & _).
  rewrite Hread. repeat split.
Defined.

(** ** The extender address *)

(** C10. [set_ext_addr] is atomic on error: an address that is 0 or above
    15 gives -1 and leaves every global, the stored address included, as it
    was; an address in 1..15 is stored, nothing else changes, and the
    result is 0. *)
Theorem set_ext_addr_atomic (w : World) (addr : Z) :
  (addr = 0 \/ 15 < addr ->
   set_ext_addr addr w = Some (-1, w)) /\
  (1 <= addr <= 15 ->
   set_ext_addr addr w = Some (0, with_i2c (set_ext_addr_field addr) w) /\
   ext_addr (i2c (with_i2c (set_ext_addr_field addr) w)) = addr).
Proof.
  unfold set_ext_addr. split; intros H.
  - replace ((addr >? 15) || (addr =? 0)) with true; [reflexivity|].
    symmetry. apply orb_true_iff. rewrite Z.gtb_lt, Z.eqb_eq. lia.
  - replace ((addr >? 15) || (addr =? 0)) with false; [split; reflexivity|].
    symmetry. apply orb_false_iff. split; [|apply Z.eqb_neq; lia].
    rewrite Z.gtb_ltb. apply Z.ltb_ge. lia.
Qed.

Lemma set_ext_addr_atomic_witness :
  (16 = 0 \/ 15 < 16) /\ (1 <= 3 <= 15) /\
  set_ext_addr 16 (boot (reset_devices 0))
    = Some (-1, boot (reset_devices 0)) /\
  ext_addr (i2c (boot (reset_devices 0))) = 255 /\
  set_ext_addr 3 (boot (reset_devices 0))
    = Some (0, with_i2c (set_ext_addr_field 3) (boot (reset_devices 0))).
Proof.
  assert (Hbad : 16 = 0 \/ 15 < 16) by (right; lia).
  assert (Hok : 1 <= 3 <= 15) by lia.
  split; [exact Hbad|]. split; [exact Hok|].
  split; [exact (proj1 (set_ext_addr_atomic (boot (reset_devices 0)) 16) Hbad)|].
  split; [reflexivity|].
  exact (proj1 (proj2 (set_ext_addr_atomic (boot (reset_devices 0)) 3) Hok)).
Defined.

(** ** Pin resolution *)

(** C9. A pin whose bank index [pin / 32] is outside 0..3, or whose bit
    offset [pin % 32] is outside 0..31, makes [mmio_get_gpio] return
    [MMIO_ERROR_ARGUMENT] at once: no call is made (/dev/mem is not opened,
    nothing is mapped), and the bank cache, the pin and every other piece
    of state are as before. *)
Theorem mmio_get_gpio_rejects_bad_pin (x : gpio_var) (w : World) :
  Z.quot (pin (deref x w)) 32 < 0 \/ 3 < Z.quot (pin (deref x w)) 32 \/
  Z.rem (pin (deref x w)) 32 < 0 \/ 31 < Z.rem (pin (deref x w)) 32 ->
  mmio_get_gpio x w = Some (MMIO_ERROR_ARGUMENT, w) /\
  events_of (mmio_get_gpio x) w = Some [].
Proof.
  intros H.
  assert (Hrun : mmio_get_gpio x w = Some (MMIO_ERROR_ARGUMENT, w)).
  { unfold mmio_get_gpio, bind, gets.
    destruct ((Z.quot (pin (deref x w)) 32 <? 0)
              || (Z.quot (pin (deref x w)) 32 >? 3)) eqn:Hbank;
      [reflexivity|].
    destruct ((Z.rem (pin (deref x w)) 32 <? 0)
              || (Z.rem (pin (deref x w)) 32 >? 31)) eqn:Hbit;
      [reflexivity|].
    apply orb_false_iff in Hbank as [B1 B2], Hbit as [B3 B4].
    rewrite Z.gtb_ltb in B2, B4.
    apply Z.ltb_ge in B1, B2, B3, B4. lia. }
  split; [exact Hrun|].
  apply (events_of_Some _ _ _ _ _ Hrun). by rewrite app_nil_r.
Qed.

Lemma mmio_get_gpio_rejects_bad_pin_witness :
  3 < Z.quot 128 32 /\
  mmio_get_gpio The_mux0
    (with_i2c (set_mux0 {| pin := 128; base := NULL; number := 0 |})
       (boot (reset_devices 0)))
  = Some (MMIO_ERROR_ARGUMENT,
          with_i2c (set_mux0 {| pin := 128; base := NULL; number := 0 |})
            (boot (reset_devices 0))).
Proof.
  assert (H : 3 < Z.quot 128 32) by (vm_compute; reflexivity).
  split; [exact H|].
  apply (mmio_get_gpio_rejects_bad_pin The_mux0
           (with_i2c (set_mux0 {| pin := 128; base := NULL; number := 0 |})
              (boot (reset_devices 0)))).
  right. left. exact H.
Defined.

(** ** Routing *)

Lemma update_bank_same phys f h : update_bank phys f h phys = f (h phys).
Proof. unfold update_bank. by rewrite Z.eqb_refl. Qed.

Lemma latch_set v r :
  dataout (hw_store (Z.quot MMIO_GPIO_SETDATAOUT 4) v r) = Z.lor (dataout r) v.
Proof. reflexivity. Qed.

Lemma latch_clear v r :
  dataout (hw_store (Z.quot MMIO_GPIO_CLEARDATAOUT 4) v r)
    = Z.ldiff (dataout r) v.
Proof. reflexivity. Qed.

Lemma two_bit_encoding (id : Z) :
  0 <= id <= 3 ->
  id = Z.b2z (Z.testbit id 0) + 2 * Z.b2z (Z.testbit id 1).
Proof.
  intros H.
  assert (id = 0 \/ id = 1 \/ id = 2 \/ id = 3) as [-> | [-> | [-> | ->]]]
    by lia; reflexivity.
Qed.

(** C5. With no extender hop ([ext_mux_id] negative, -1 in particular),
    the routing returns after exactly two stores: the demultiplexer pin
    [mux0] is driven to bit 0 of the direct id and [mux1] to bit 1, which
    is the 2-bit binary encoding of an id in 0..3, least significant bit on
    [mux0] (id 2 gives low, high).  The output latches of GPIO1_16 and
    GPIO1_19 hold these two bits afterwards, and no SPI transfer is
    issued. *)
Theorem route_without_extender (w : World) (id : identifier) :
  mux_resolved w ->
  0 <= mux_id id <= 3 ->
  ext_mux_id id < 0 ->
  exists w',
    bme_read_route id w = Some (tt, w') /\
    trace (dev w') =
      trace (dev w) ++
      [drive GPIO1_ADDR (mux0 (i2c w)) (Z.testbit (mux_id id) 0);
       drive GPIO1_ADDR (mux1 (i2c w)) (Z.testbit (mux_id id) 1)] /\
    transfers
      [drive GPIO1_ADDR (mux0 (i2c w)) (Z.testbit (mux_id id) 0);
       drive GPIO1_ADDR (mux1 (i2c w)) (Z.testbit (mux_id id) 1)] = [] /\
    Z.testbit (dataout (gpio_hw (dev w') GPIO1_ADDR)) 16
      = Z.testbit (mux_id id) 0 /\
    Z.testbit (dataout (gpio_hw (dev w') GPIO1_ADDR)) 19
      = Z.testbit (mux_id id) 1 /\
    mux_id id
      = Z.b2z (Z.testbit (mux_id id) 0) + 2 * Z.b2z (Z.testbit (mux_id id) 1).
Proof.
  intros [Hmux0 Hmux1] Hid Hext.
  assert (Hno : (ext_mux_id id >=? 0) = false)
    by (rewrite Z.geb_leb; apply Z.leb_gt; lia).
  pose proof (two_bit_encoding (mux_id id) Hid) as Henc.
  destruct w as [s g d]. destruct g as [m0 m1 pc ea].
  destruct d as [p hw k rx a t].
  cbv [i2c mux0 mux1] in Hmux0, Hmux1. subst m0 m1.
  unfold_mux. rewrite Hno. unfold mmio_set_high, mmio_set_low.
  assert (mux_id id = 0 \/ mux_id id = 1 \/ mux_id id = 2 \/ mux_id id = 3)
    as [E | [E | [E | E]]] by lia; rewrite E in *; clear E;
    eval_truth; unfold_calls; red_state;
    (eexists; split; [reflexivity|]); red_state;
    (split; [rewrite <- app_assoc; reflexivity|]);
    (split; [reflexivity|]);
    (split; [|split; [|exact Henc]]);
    rewrite !update_bank_same;
    repeat first [rewrite latch_set | rewrite latch_clear];
    repeat first [rewrite Z.lor_spec | rewrite Z.ldiff_spec];
    destruct (Z.testbit (dataout (hw GPIO1_ADDR)) _);
    vm_compute; reflexivity.
Qed.

Lemma route_without_extender_witness :
  mux_resolved (payload_world 0) /\
  (0 <= 2 <= 3) /\ (-1 < 0) /\
  exists w',
    bme_read_route {| mux_id := 2; ext_mux_id := -1; id_fd := 3 |}
      (payload_world 0) = Some (tt, w') /\
    Z.testbit (dataout (gpio_hw (dev w') GPIO1_ADDR)) 16 = false /\
    Z.testbit (dataout (gpio_hw (dev w') GPIO1_ADDR)) 19 = true.
Proof.
  assert (Hmux : mux_resolved (payload_world 0)) by (split; reflexivity).
  assert (Hid : 0 <= 2 <= 3) by lia.
  assert (Hext : -1 < 0) by lia.
  split; [exact Hmux|]. split; [exact Hid|]. split; [exact Hext|].
  destruct (route_without_extender (payload_world 0)
              {| mux_id := 2; ext_mux_id := -1; id_fd := 3 |} Hmux Hid Hext)
    as (w' & Hrun & _ & _ & H16 & H19 & _).
  exists w'. split; [exact Hrun|]. split; [exact H16|exact H19].
Defined.

(** C4, as stated, fails.  With the extender address set to 3, the routing
    to direct id 0 and extender id 5 drives both demultiplexer pins low and
    issues one control transfer, but its frame, 26, selects module 2 at
    board 3, not module 5; the extender id 5 travels in a second transfer,
    a payload transfer at the payload profile. *)
Lemma route_extender_frame_counterexample :
  events_of (bme_read_route {| mux_id := 0; ext_mux_id := 5; id_fd := 3 |})
    (payload_world 0) =
    Some [EvStore GPIO1_ADDR 100 65536;
          EvStore GPIO1_ADDR 100 524288;
          EvIoctl SPI_IOC_WR_MODE 3;
          EvIoctl SPI_IOC_WR_BITS_PER_WORD 8;
          EvStore GPIO1_ADDR 100 262144;
          EvMessage 1 {| tx_buf := [26]; len := 1; delay_usecs := 0;
                         speed_hz := 1000000; bits_per_word := 8 |} 0;
          EvStore GPIO1_ADDR 101 262144;
          EvIoctl SPI_IOC_WR_MODE 0;
          EvIoctl SPI_IOC_WR_BITS_PER_WORD 16;
          EvMessage 1 {| tx_buf := [5]; len := 1; delay_usecs := 0;
                         speed_hz := 1000000; bits_per_word := 16 |} 0] /\
  ext_addr (i2c (payload_world 0)) = 3 /\
  Frame.board_address 26 = 3 /\
  Frame.module 26 = 2 /\
  Frame.module 26 <> 5.
Proof.
  repeat split; try (vm_compute; reflexivity).
  vm_compute. discriminate.
Qed.

(** C4, amended.  The routing to direct id 0 and extender id 5 drives the
    two demultiplexer pins low and then issues exactly one control
    transfer, whose frame decodes to the configured extender board address
    and to module 2; the extender id 5 follows as the single byte of one
    payload transfer. *)
Theorem route_through_extender (w : World) (id : identifier) (phys : Z) :
  mux_resolved w ->
  base (ds_pin (spi w)) = Mapped phys ->
  1 <= ext_addr (i2c w) <= 15 ->
  mux_id id = 0 ->
  ext_mux_id id = 5 ->
  events_of (bme_read_route id) w =
    Some ([drive GPIO1_ADDR (mux0 (i2c w)) false;
           drive GPIO1_ADDR (mux1 (i2c w)) false] ++
          control_transfer (spi w) phys
            [select_module_msg (ext_addr (i2c w)) 2] 1 (upcoming w 0) ++
          [payload_transfer (spi w) [5] 1 (upcoming w 1)]) /\
  Frame.board_address (select_module_msg (ext_addr (i2c w)) 2)
    = ext_addr (i2c w) /\
  Frame.module (select_module_msg (ext_addr (i2c w)) 2) = 2.
Proof.
  intros [Hmux0 Hmux1] Hds Haddr Hid Hext.
  split.
  - destruct w as [s g d]. destruct g as [m0 m1 pc ea].
    destruct s as [gb bits speed delay mode fildes cs ds].
    destruct d as [p hw k rx a t]. destruct ds as [dp db dn].
    cbv [i2c mux0 mux1] in Hmux0, Hmux1. cbv [spi ds_pin base] in Hds.
    subst m0 m1 db.
    unfold_mux. rewrite Hid, Hext.
    change (5 >=? 0) with true. change (CInt.to_uint8 5) with 5.
    eval_truth. unfold_spi. unfold_calls.
    split_profile mode bits; flatten_trace; reflexivity.
  - assert (Hm : 0 <= 2 <= 7) by lia.
    destruct (frame_ok_fields (ext_addr (i2c w)) 2 Haddr Hm)
      as (_ & _ & _ & _ & Hboard & Hmodule).
    split; assumption.
Qed.

Lemma route_through_extender_witness :
  mux_resolved (payload_world 0) /\
  (1 <= ext_addr (i2c (payload_world 0)) <= 15) /\
  transfers <$>
    events_of (bme_read_route {| mux_id := 0; ext_mux_id := 5; id_fd := 3 |})
      (payload_world 0) =
    Some [EvMessage 1 {| tx_buf := [26]; len := 1; delay_usecs := 0;
                         speed_hz := 1000000; bits_per_word := 8 |} 0;
          EvMessage 1 {| tx_buf := [5]; len := 1; delay_usecs := 0;
                         speed_hz := 1000000; bits_per_word := 16 |} 0] /\
  Frame.module (select_module_msg (ext_addr (i2c (payload_world 0))) 2) = 2.
Proof.
  assert (Hmux : mux_resolved (payload_world 0)) by (split; reflexivity).
  assert (Hds : base (ds_pin (spi (payload_world 0))) = Mapped GPIO1_ADDR)
    by reflexivity.
  assert (Haddr : 1 <= ext_addr (i2c (payload_world 0)) <= 15)
    by (vm_compute; split; discriminate).
  destruct (route_through_extender (payload_world 0)
              {| mux_id := 0; ext_mux_id := 5; id_fd := 3 |} GPIO1_ADDR
              Hmux Hds Haddr eq_refl eq_refl) as (Hev & _ & Hmodule).
  split; [exact Hmux|]. split; [exact Haddr|].
  split; [rewrite Hev; vm_compute; reflexivity|exact Hmodule].
Defined.

(** ** Configuration of the demultiplexer *)

(** The flag is up: [configure_mux] returns 0 and does nothing. *)
Lemma configure_mux_configured w :
  pins_configured (i2c w) <> 0 -> configure_mux w = Some (0, w).
Proof.
  intros H. unfold configure_mux. rewrite bind_gets.
  unfold CInt.truth, CInt.lnot.
  destruct (pins_configured (i2c w) =? 0) eqn:E; [|reflexivity].
  apply Z.eqb_eq in E. contradiction.
Qed.

(** A call that returns 0 leaves the flag up. *)
Lemma configure_mux_sets_flag w w1 :
  configure_mux w = Some (0, w1) -> pins_configured (i2c w1) <> 0.
Proof.
  unfold configure_mux. rewrite bind_gets.
  unfold CInt.truth at 1, CInt.lnot at 1.
  destruct (pins_configured (i2c w) =? 0) eqn:E; cbv [negb Z.eqb].
  - unfold bind, gets, modify, ret. intros H.
    repeat match type of H with
           | match ?x with _ => _ end = _ =>
               destruct x as [[? ?]|] eqn:?; [|discriminate H]
           end.
    injection H as Hr <-. cbv [i2c with_i2c set_pins_configured pins_configured].
    rewrite Hr. discriminate.
  - intros H. injection H as <-. apply Z.eqb_neq in E. exact E.
Qed.

Section FirstCall.

(** A call of [configure_mux] with the flag down. *)
Variable w : World.
Hypothesis Hpc : pins_configured (i2c w) = 0.

Lemma configure_mux_flag_down :
  configure_mux w =
    (let* r0 := bbb_mmio_get_gpio The_mux0 in
     let* g := gets i2c in
     bbb_mmio_set_output (mux0 g) ;;
     let* r1 := bbb_mmio_get_gpio The_mux1 in
     let* g := gets i2c in
     bbb_mmio_set_output (mux0 g) ;;
     modify (with_i2c (set_pins_configured
       (CInt.lnot (CInt.to_int8 (Z.lor (CInt.to_int8 (Z.lor 0 r0)) r1))))) ;;
     ret (CInt.to_int8 (Z.lor (CInt.to_int8 (Z.lor 0 r0)) r1))) w.
Proof.
  unfold configure_mux. rewrite bind_gets, Hpc. reflexivity.
Qed.

(** The first resolution failed: [mux0] still has its NULL pointer, and
    line 160 stores through it. *)
Lemma configure_mux_crashes e w' :
  mmio_get_gpio The_mux0 w = Some (e, w') ->
  base (mux0 (i2c w')) = NULL ->
  configure_mux w = None.
Proof.
  intros Hget Hnull.
  rewrite configure_mux_flag_down.
  unfold bbb_mmio_get_gpio, bbb_mmio_set_output.
  rewrite (bind_Some _ _ _ _ _ Hget), bind_gets.
  apply bind_None, mmio_set_output_null, Hnull.
Qed.

(** The first resolution succeeded: the rest of [configure_mux] runs to the
    end.  Both stores to the output-enable register clear bit 16. *)
Lemma configure_mux_resolves w' :
  mmio_get_gpio The_mux0 w = Some (MMIO_SUCCESS, w') ->
  mux0 (i2c w') = {| pin := 0; base := Mapped GPIO1_ADDR; number := 16 |} ->
  mux1 (i2c w') = {| pin := P9_16; base := NULL; number := 0 |} ->
  gpio_base (spi w') !! 1%nat = Some (Mapped GPIO1_ADDR) ->
  exists w1,
    configure_mux w = Some (0, w1) /\
    pins_configured (i2c w1) = 1 /\
    mux_resolved w1 /\
    trace (dev w1) =
      trace (dev w') ++
      [EvStore GPIO1_ADDR (Z.quot MMIO_OE_ADDR 4)
         (Z.land (oe (gpio_hw (dev w') GPIO1_ADDR)) 0xFFFEFFFF);
       EvStore GPIO1_ADDR (Z.quot MMIO_OE_ADDR 4)
         (Z.land (Z.land (oe (gpio_hw (dev w') GPIO1_ADDR)) 0xFFFEFFFF)
                 0xFFFEFFFF)] /\
    oe (gpio_hw (dev w1) GPIO1_ADDR) =
      Z.land (Z.land (oe (gpio_hw (dev w') GPIO1_ADDR)) 0xFFFEFFFF) 0xFFFEFFFF.
Proof.
  intros Hget H0 H1 Hbank.
  rewrite configure_mux_flag_down.
  unfold bbb_mmio_get_gpio, bbb_mmio_set_output.
  rewrite (bind_Some _ _ _ _ _ Hget), bind_gets. clear Hget.
  destruct w' as [s [m0 m1 pc ea] d].
  cbv [i2c mux0 mux1] in H0, H1. subst m0 m1.
  cbv [i2c mux0].
  erewrite bind_Some by (apply mmio_set_output_mapped; reflexivity).
  erewrite bind_Some.
  2:{ rewrite mmio_get_gpio_valid
        by (cbv [stored with_dev deref i2c mux1 pin P9_16]; lia).
      cbv [stored with_dev deref i2c mux1 pin].
      change (Z.quot P9_16 32) with 1. change (Z.rem P9_16 32) with 19.
      erewrite bind_Some by (apply map_bank_cached; exact Hbank).
      cbv iota. rewrite bind_modify. reflexivity. }
  rewrite bind_gets.
  cbv [assign with_i2c set_mux1 i2c mux0 mux1 pins_configured ext_addr spi dev].
  erewrite bind_Some by (apply mmio_set_output_mapped; reflexivity).
  rewrite bind_modify.
  change (CInt.to_int8
            (Z.lor (CInt.to_int8 (Z.lor 0 MMIO_SUCCESS)) MMIO_SUCCESS))
    with 0.
  eexists. split; [reflexivity|].
  split; [reflexivity|]. split; [split; reflexivity|].
  destruct d as [p hw k rx a t].
  cbv [stored with_dev dev spi i2c log set_gpio_hw trace gpio_hw spidev
       kernel asked].
  rewrite <- app_assoc. cbn [app].
  rewrite !update_bank_same.
  split; reflexivity.
Qed.

End FirstCall.

(** The first resolution of [mux0], from the program's initial state. *)
Lemma mmio_get_gpio_mux0_first w :
  mux_unresolved w ->
  (exists e w',
     mmio_get_gpio The_mux0 w = Some (e, w') /\
     base (mux0 (i2c w')) = NULL) \/
  (exists w',
     mmio_get_gpio The_mux0 w = Some (MMIO_SUCCESS, w') /\
     mux0 (i2c w') = {| pin := 0; base := Mapped GPIO1_ADDR; number := 16 |} /\
     mux1 (i2c w') = {| pin := P9_16; base := NULL; number := 0 |} /\
     gpio_base (spi w') !! 1%nat = Some (Mapped GPIO1_ADDR)).
Proof.
  intros (H0 & H1 & Hpc & Hbank).
  rewrite mmio_get_gpio_valid by (cbv [deref]; rewrite H0; cbv [pin P9_15]; lia).
  cbv [deref]. rewrite H0. cbv [pin].
  change (Z.quot P9_15 32) with 1. change (Z.rem P9_15 32) with 16.
  destruct Hbank as [Hbank | Hbank].
  - pose proof (lookup_lt_Some _ _ _ Hbank) as Hlen.
    unfold bind. rewrite (map_bank_uncached w 1 Hbank). cbv zeta.
    change (default 0 (gpio_addresses !! Z.to_nat 1)) with GPIO1_ADDR.
    destruct (upcoming w 0 =? -1).
    { left. do 2 eexists. split; [reflexivity|].
      change (base (mux0 (i2c w)) = NULL). by rewrite H0. }
    destruct (upcoming w 1 =? MAP_FAILED).
    { left. do 2 eexists. split; [reflexivity|].
      change (base (mux0 (i2c w)) = NULL). by rewrite H0. }
    right. eexists. split; [reflexivity|].
    split; [reflexivity|]. split; [exact H1|].
    change (<[1%nat := Mapped GPIO1_ADDR]> (gpio_base (spi w)) !! 1%nat
            = Some (Mapped GPIO1_ADDR)).
    by apply list_lookup_insert_eq.
  - right. unfold bind. rewrite (map_bank_cached w 1 _ Hbank).
    eexists. split; [reflexivity|].
    split; [reflexivity|]. split; [exact H1|exact Hbank].
Qed.

(** The first call of [configure_mux]: it crashes when bank 1 cannot be
    mapped, and otherwise returns 0 with the flag up and both pins
    resolved.  It never returns an error. *)
Lemma configure_mux_first_call w :
  mux_unresolved w ->
  configure_mux w = None \/
  exists w1,
    configure_mux w = Some (0, w1) /\
    pins_configured (i2c w1) = 1 /\
    mux_resolved w1.
Proof.
  intros Hw. pose proof Hw as (_ & _ & Hpc & _).
  destruct (mmio_get_gpio_mux0_first w Hw)
    as [(e & w' & Hget & Hnull) | (w' & Hget & H0 & H1 & Hbank)].
  - left. exact (configure_mux_crashes w Hpc e w' Hget Hnull).
  - right.
    destruct (configure_mux_resolves w Hpc w' Hget H0 H1 Hbank)
      as (w1 & Hrun & Hflag & Hres & _).
    exists w1. auto.
Qed.

(** C7, on the code.  The first call of [configure_mux], on the program as
    it starts over devices after reset, returns 0 and sets
    [pins_configured]; both pins are resolved, to GPIO1_16 and GPIO1_19.
    The two stores to the output-enable register both clear bit 16, the
    bit of [mux0]: line 162 passes [mux0] a second time.  Bit 19, the bit
    of [mux1], is still set, so that [mux1] is still an input. *)
Theorem configure_mux_leaves_mux1_input :
  exists w',
    configure_mux (boot (reset_devices 0)) = Some (0, w') /\
    pins_configured (i2c w') = 1 /\
    mux0 (i2c w') = {| pin := 0; base := Mapped GPIO1_ADDR; number := 16 |} /\
    mux1 (i2c w') = {| pin := 0; base := Mapped GPIO1_ADDR; number := 19 |} /\
    trace (dev w') =
      [EvOpen "/dev/mem" 0;
       EvMmap GPIO_LENGTH GPIO1_ADDR 0;
       EvStore GPIO1_ADDR (Z.quot MMIO_OE_ADDR 4) 0xFFFEFFFF;
       EvStore GPIO1_ADDR (Z.quot MMIO_OE_ADDR 4) 0xFFFEFFFF] /\
    Z.testbit (oe (gpio_hw (dev w') GPIO1_ADDR)) 16 = false /\
    Z.testbit (oe (gpio_hw (dev w') GPIO1_ADDR)) 19 = true.
Proof.
  eexists. split; [vm_compute; reflexivity|].
  repeat split; vm_compute; reflexivity.
Qed.

(** C8. [configure_mux] is idempotent and memoized.  From the program's
    initial state, two calls in a row end exactly as one call does (same
    result, same world, hence the same pin state).  After any call that
    returned 0, a further call returns 0, leaves the world as it is and
    makes no device call. *)
Theorem configure_mux_idempotent (w : World) :
  (mux_unresolved w ->
   (configure_mux ;; configure_mux) w = configure_mux w) /\
  (forall w1,
     configure_mux w = Some (0, w1) ->
     configure_mux w1 = Some (0, w1) /\
     events_of configure_mux w1 = Some []).
Proof.
  assert (Hmemo : forall u u1, configure_mux u = Some (0, u1) ->
                               configure_mux u1 = Some (0, u1)).
  { intros u u1 Hrun.
    apply configure_mux_configured, (configure_mux_sets_flag u), Hrun. }
  split.
  - intros Hw.
    destruct (configure_mux_first_call w Hw) as [Hcrash | (w1 & Hrun & _)].
    + rewrite (bind_None _ _ _ Hcrash). by rewrite Hcrash.
    + rewrite (bind_Some _ _ _ _ _ Hrun), Hrun. exact (Hmemo w w1 Hrun).
  - intros w1 Hrun. pose proof (Hmemo w w1 Hrun) as Hagain.
    split; [exact Hagain|].
    apply (events_of_Some _ _ _ _ _ Hagain). by rewrite app_nil_r.
Qed.

Lemma configure_mux_idempotent_witness :
  mux_unresolved (boot (reset_devices 0)) /\
  (configure_mux ;; configure_mux) (boot (reset_devices 0))
    = configure_mux (boot (reset_devices 0)) /\
  exists w1,
    configure_mux (boot (reset_devices 0)) = Some (0, w1) /\
    configure_mux w1 = Some (0, w1) /\
    events_of configure_mux w1 = Some [].
Proof.
  assert (Hw : mux_unresolved (boot (reset_devices 0))).
  { repeat split; try reflexivity. left. reflexivity. }
  destruct (configure_mux_idempotent (boot (reset_devices 0)))
    as [Htwice Hmemo].
  split; [exact Hw|]. split; [exact (Htwice Hw)|].
  destruct (configure_mux_first_call _ Hw) as [Hcrash | (w1 & Hrun & _)].
  - vm_compute in Hcrash. discriminate Hcrash.
  - exists w1. split; [exact Hrun|]. exact (Hmemo w1 Hrun).
Defined.

(** * Further properties of the code *)

(** ** The parity fold *)

(** The low bit of a word, as [y & 1] reads it. *)
Lemma land_1_bit (y : Z) : Z.land y 1 = Z.b2z (Z.testbit y 0).
Proof.
  change 1 with (Z.ones 1). rewrite Z.land_ones by lia.
  symmetry. apply Z.bit0_mod.
Qed.

(** X1. [calculate_parity] is the exclusive or of the 32 bits of its
    argument, for every [int], negative ones included: the five folds leave
    in bit 0 the parity of the whole word. *)
Theorem calculate_parity_xor_fold (x : Z) :
  calculate_parity x = Z.b2z (xor_bits x 32).
Proof.
  unfold calculate_parity. rewrite land_1_bit. f_equal.
  repeat first [rewrite Z.lxor_spec | rewrite Z.shiftr_spec by lia].
  cbv [xor_bits].
  repeat match goal with
         | |- context [Z.testbit x ?i] =>
             lazymatch i with
             | Z0 => fail
             | Zpos _ => fail
             | _ => let v := eval vm_compute in i in change i with v
             end
         end.
  btauto.
Qed.

(** ** Frames on the wire *)

Lemma frame_parity_ok_table :
  forallb (fun a => forallb (frame_parity_ok a) (seqZ 0 8)) (seqZ 0 16) = true.
Proof. vm_compute. reflexivity. Qed.

(** X2. Every frame that [select_module] builds for an address in 0..15
    and a module in 0..7 passes the receiver's check: its five high bits,
    the parity bit and the address, hold an even number of ones (the code's
    own [calculate_parity] gives 0 on them). *)
Theorem frame_has_even_parity (address module : Z) :
  0 <= address <= 15 ->
  0 <= module <= 7 ->
  calculate_parity (Z.shiftr (select_module_msg address module) 3) = 0 /\
  (Frame.parity_bit (select_module_msg address module)
   + Frame.ones4 (Frame.board_address (select_module_msg address module)))
    mod 2 = 0.
Proof.
  intros Ha Hm.
  assert (H : frame_parity_ok address module = true).
  { pose proof frame_parity_ok_table as H.
    rewrite forallb_forall in H.
    specialize (H address). rewrite forallb_forall in H.
    apply H; apply list_elem_of_In, elem_of_seqZ; lia. }
  revert H. unfold frame_parity_ok. cbv zeta.
  rewrite andb_true_iff, !Z.eqb_eq. tauto.
Qed.

Lemma frame_has_even_parity_witness :
  (0 <= 7 <= 15) /\ (0 <= 2 <= 7) /\
  select_module_msg 7 2 = 186 /\
  calculate_parity (Z.shiftr (select_module_msg 7 2) 3) = 0.
Proof.
  assert (Ha : 0 <= 7 <= 15) by lia.
  assert (Hm : 0 <= 2 <= 7) by lia.
  split; [exact Ha|]. split; [exact Hm|]. split; [reflexivity|].
  exact (proj1 (frame_has_even_parity 7 2 Ha Hm)).
Defined.

(** X3. [unselect_i2c_extender] sends the zero byte, as one control
    transfer.  [select_module] builds that byte for address 0 and module 0,
    and for no address in 1..15, whatever the module in 0..7: a configured
    board is never unselected by one of its own frames. *)
Theorem unselect_frame_is_reserved (w : World) (address module phys : Z) :
  base (ds_pin (spi w)) = Mapped phys ->
  1 <= address <= 15 ->
  0 <= module <= 7 ->
  events_of unselect_i2c_extender w =
    Some (control_transfer (spi w) phys [0] 1 (upcoming w 0)) /\
  select_module_msg 0 0 = 0 /\
  select_module_msg address module <> 0.
Proof.
  intros Hds Ha Hm. split; [|split; [reflexivity|]].
  - destruct (spi_mod_comm_runs w [0] 1 phys Hds) as (w' & Hrun & Htrace & _).
    unfold unselect_i2c_extender.
    apply (events_of_Some _ w tt w').
    + rewrite (bind_Some _ _ _ _ _ Hrun). reflexivity.
    + exact Htrace.
  - destruct (frame_ok_fields address module Ha Hm)
      as (_ & _ & _ & _ & Hboard & _).
    intros Hzero. rewrite Hzero in Hboard.
    change (Frame.board_address 0) with 0 in Hboard. lia.
Qed.

Lemma unselect_frame_is_reserved_witness :
  (1 <= 3 <= 15) /\ (0 <= 2 <= 7) /\
  transfers <$> events_of unselect_i2c_extender (payload_world 0) =
    Some [EvMessage 1 {| tx_buf := [0]; len := 1; delay_usecs := 0;
                         speed_hz := 1000000; bits_per_word := 8 |} 0] /\
  select_module_msg 3 2 <> 0.
Proof.
  assert (Hds : base (ds_pin (spi (payload_world 0))) = Mapped GPIO1_ADDR)
    by reflexivity.
  assert (Ha : 1 <= 3 <= 15) by lia.
  assert (Hm : 0 <= 2 <= 7) by lia.
  destruct (unselect_frame_is_reserved (payload_world 0) 3 2 GPIO1_ADDR
              Hds Ha Hm) as (Hev & _ & Hne).
  split; [exact Ha|]. split; [exact Hm|].
  split; [rewrite Hev; vm_compute; reflexivity|exact Hne].
Defined.

(** ** The pin driver, bit by bit *)

Lemma pin_mask_pow2 g : 0 <= number g <= 31 -> pin_mask g = 2 ^ number g.
Proof.
  intros H. unfold pin_mask, CInt.to_uint32, CInt.to_unsigned.
  rewrite Z.shiftl_1_l. apply Z.mod_small.
  split; [apply Z.pow_nonneg; lia|apply Z.pow_lt_mono_r; lia].
Qed.

Lemma testbit_clear_mask v m n :
  0 <= m -> 0 <= n < 32 ->
  Z.testbit (Z.land v (Z.lxor 0xFFFFFFFF (2 ^ m))) n
    = Z.testbit v n && negb (m =? n).
Proof.
  intros Hm Hn. rewrite Z.land_spec, Z.lxor_spec, Z.pow2_bits_eqb by lia.
  change 0xFFFFFFFF with (Z.ones 32). rewrite Z.ones_spec_low by lia.
  reflexivity.
Qed.

Lemma testbit_set_mask v m n :
  0 <= m -> 0 <= n ->
  Z.testbit (Z.lor v (2 ^ m)) n = Z.testbit v n || (m =? n).
Proof. intros Hm Hn. by rewrite Z.lor_spec, Z.pow2_bits_eqb by lia. Qed.

Lemma testbit_ldiff_mask v m n :
  0 <= m -> 0 <= n ->
  Z.testbit (Z.ldiff v (2 ^ m)) n = Z.testbit v n && negb (m =? n).
Proof. intros Hm Hn. by rewrite Z.ldiff_spec, Z.pow2_bits_eqb by lia. Qed.


Lemma mmio_set_high_mapped g w phys :
  base g = Mapped phys ->
  mmio_set_high g w =
    Some (tt, stored phys (Z.quot MMIO_GPIO_SETDATAOUT 4) (pin_mask g) w).
Proof. intros H. unfold mmio_set_high. rewrite H. reflexivity. Qed.

Lemma mmio_set_low_mapped g w phys :
  base g = Mapped phys ->
  mmio_set_low g w =
    Some (tt, stored phys (Z.quot MMIO_GPIO_CLEARDATAOUT 4) (pin_mask g) w).
Proof. intros H. unfold mmio_set_low. rewrite H. reflexivity. Qed.

(** A store to one bank: the registers of that bank afterwards, and the
    other banks. *)
Lemma stored_same phys reg v w :
  gpio_hw (dev (stored phys reg v w)) phys
    = hw_store reg v (gpio_hw (dev w) phys).
Proof. unfold stored. cbn. apply update_bank_same. Qed.

Lemma stored_other phys reg v w other :
  other <> phys ->
  gpio_hw (dev (stored phys reg v w)) other = gpio_hw (dev w) other.
Proof.
  intros H. unfold stored, update_bank. cbn.
  destruct (other =? phys) eqn:E; [|reflexivity].
  apply Z.eqb_eq in E. contradiction.
Qed.

Lemma oe_after_store v r :
  oe (hw_store (Z.quot MMIO_OE_ADDR 4) v r) = v /\
  dataout (hw_store (Z.quot MMIO_OE_ADDR 4) v r) = dataout r.
Proof. split; reflexivity. Qed.



(** What driving a pin does to the world. *)
Lemma pin_level_effect (g : gpio_t) (w : World) (phys : Z)
    (level : bool) :
  base g = Mapped phys ->
  0 <= number g <= 31 ->
  exists w1,
    (if level then mmio_set_high g else mmio_set_low g) w = Some (tt, w1) /\
    trace (dev w1) = trace (dev w) ++ [drive phys g level] /\
    latch_bit w1 phys (number g) = level /\
    (forall n, 0 <= n -> n <> number g ->
       latch_bit w1 phys n = latch_bit w phys n) /\
    oe (gpio_hw (dev w1) phys) = oe (gpio_hw (dev w) phys) /\
    datain (gpio_hw (dev w1) phys) = datain (gpio_hw (dev w) phys) /\
    spi w1 = spi w /\ i2c w1 = i2c w /\
    (forall other, other <> phys ->
       gpio_hw (dev w1) other = gpio_hw (dev w) other).
Proof.
  intros Hbase Hnum. destruct level.
  - eexists. split; [exact (mmio_set_high_mapped g w phys Hbase)|].
    split; [reflexivity|].
    unfold latch_bit. rewrite !stored_same, latch_set.
    rewrite (pin_mask_pow2 g Hnum).
    repeat split.
    + rewrite testbit_set_mask by lia. rewrite Z.eqb_refl. apply orb_true_r.
    + intros n Hn Hne. rewrite testbit_set_mask by lia.
      replace (number g =? n) with false by (symmetry; apply Z.eqb_neq; lia).
      apply orb_false_r.
    + intros other Hother. by rewrite stored_other.
  - eexists. split; [exact (mmio_set_low_mapped g w phys Hbase)|].
    split; [reflexivity|].
    unfold latch_bit. rewrite !stored_same, latch_clear.
    rewrite (pin_mask_pow2 g Hnum).
    repeat split.
    + rewrite testbit_ldiff_mask by lia. rewrite Z.eqb_refl.
      apply andb_false_r.
    + intros n Hn Hne. rewrite testbit_ldiff_mask by lia.
      replace (number g =? n) with false by (symmetry; apply Z.eqb_neq; lia).
      apply andb_true_r.
    + intros other Hother. by rewrite stored_other.
Qed.

(** X5. [mmio_set_high] sets, and [mmio_set_low] clears, the output latch
    of the pin and of no other pin; neither touches a direction bit.  Each
    is a single store, to the set or to the clear register. *)
Theorem pin_level_touches_one_bit (g : gpio_t) (w : World) (phys : Z)
    (level : bool) :
  base g = Mapped phys ->
  0 <= number g <= 31 ->
  exists w1,
    (if level then mmio_set_high g else mmio_set_low g) w = Some (tt, w1) /\
    trace (dev w1) = trace (dev w) ++ [drive phys g level] /\
    latch_bit w1 phys (number g) = level /\
    (forall n, 0 <= n -> n <> number g ->
       latch_bit w1 phys n = latch_bit w phys n) /\
    oe (gpio_hw (dev w1) phys) = oe (gpio_hw (dev w) phys) /\
    (forall other, other <> phys ->
       gpio_hw (dev w1) other = gpio_hw (dev w) other).
Proof.
  intros Hbase Hnum.
  destruct (pin_level_effect g w phys level Hbase Hnum)
    as (w1 & Hrun & Htrace & Hbit & Hrest & Hoe & _ & _ & _ & Hother).
  exists w1. auto 7.
Qed.

Lemma pin_level_touches_one_bit_witness :
  (0 <= 18 <= 31) /\
  exists w1,
    mmio_set_high (ds_pin (spi (payload_world 0))) (payload_world 0)
      = Some (tt, w1) /\
    latch_bit w1 GPIO1_ADDR 18 = true.
Proof.
  assert (Hnum : 0 <= number (ds_pin (spi (payload_world 0))) <= 31)
    by (vm_compute; split; discriminate).
  split; [lia|].
  destruct (pin_level_touches_one_bit (ds_pin (spi (payload_world 0)))
              (payload_world 0) GPIO1_ADDR true eq_refl Hnum)
    as (w1 & H1 & _ & Hbit & _).
  exists w1. auto.
Defined.

Lemma land_pow2 v n :
  0 <= n -> Z.land v (2 ^ n) = if Z.testbit v n then 2 ^ n else 0.
Proof.
  intros Hn. apply Z.bits_inj'. intros m Hm.
  rewrite Z.land_spec, Z.pow2_bits_eqb by lia.
  destruct (Z.eqb_spec n m) as [->|Hne].
  - destruct (Z.testbit v m) eqn:E.
    + by rewrite Z.pow2_bits_eqb, Z.eqb_refl by lia.
    + by rewrite Z.bits_0.
  - rewrite andb_false_r.
    destruct (Z.testbit v n).
    + rewrite Z.pow2_bits_eqb by lia. symmetry. by apply Z.eqb_neq.
    + by rewrite Z.bits_0.
Qed.

(** X6. [mmio_input] reads the data-in register and changes nothing.  Its
    result is the bit of the pin left in place: [1 << number] when the pin
    reads high, 0 when it reads low, and so 1 only for bit 0. *)
Theorem mmio_input_is_masked_bit (g : gpio_t) (w : World) (phys : Z) :
  base g = Mapped phys ->
  0 <= number g <= 31 ->
  mmio_input g w =
    Some ((if Z.testbit (datain (gpio_hw (dev w) phys)) (number g)
           then 2 ^ number g else 0), w).
Proof.
  intros Hbase Hnum. unfold mmio_input, reg_load. rewrite Hbase.
  rewrite bind_gets. unfold ret.
  change (hw_load (Z.quot MMIO_GPIO_DATAIN 4) (gpio_hw (dev w) phys))
    with (datain (gpio_hw (dev w) phys)).
  by rewrite (pin_mask_pow2 g Hnum), land_pow2 by lia.
Qed.

Lemma mmio_input_is_masked_bit_witness :
  (0 <= 18 <= 31) /\
  mmio_input {| pin := 0; base := Mapped GPIO1_ADDR; number := 18 |}
    (with_dev (set_gpio_hw (fun _ =>
       {| oe := 0xFFFFFFFF; dataout := 0; datain := 0x00040001 |}))
       (payload_world 0))
  = Some (262144,
          with_dev (set_gpio_hw (fun _ =>
            {| oe := 0xFFFFFFFF; dataout := 0; datain := 0x00040001 |}))
            (payload_world 0)).
Proof.
  assert (Hnum : 0 <= 18 <= 31) by lia.
  split; [exact Hnum|].
  exact (mmio_input_is_masked_bit
           {| pin := 0; base := Mapped GPIO1_ADDR; number := 18 |}
           (with_dev (set_gpio_hw (fun _ =>
              {| oe := 0xFFFFFFFF; dataout := 0; datain := 0x00040001 |}))
              (payload_world 0))
           GPIO1_ADDR eq_refl Hnum).
Defined.

(** ** The direct demultiplexer, for every id *)

(** The test [(id >> k) & 1] of [direct_mux] is bit [k] of the id. *)
Lemma mux_test (id k : Z) :
  0 <= k -> CInt.truth (Z.land (Z.shiftr id k) 1) = Z.testbit id k.
Proof.
  intros Hk. rewrite land_1_bit, Z.shiftr_spec by lia.
  rewrite Z.add_0_l. unfold CInt.truth. by destruct (Z.testbit id k).
Qed.

Lemma direct_mux_by_bits (id : Z) (w : World) :
  direct_mux id w =
    (let* g := gets i2c in
     (if Z.testbit id 0 then mmio_set_high (mux0 g) else mmio_set_low (mux0 g)) ;;
     (if Z.testbit id 1 then mmio_set_high (mux1 g) else mmio_set_low (mux1 g)))
      w.
Proof.
  unfold direct_mux, bbb_mmio_set_high, bbb_mmio_set_low.
  by rewrite !mux_test by lia.
Qed.

(** X7. [direct_mux] looks at the two low bits of its [uint8_t] id and at
    nothing else: an id above 3 selects the channel of its remainder
    modulo 4, in every state (also when the call crashes). *)
Theorem direct_mux_wraps_modulo_4 (id : Z) (w : World) :
  direct_mux id w = direct_mux (id mod 4) w.
Proof.
  rewrite !direct_mux_by_bits.
  change 4 with (2 ^ 2).
  by rewrite !Z.mod_pow2_bits_low by lia.
Qed.

(** What [direct_mux] does to the world, the pins being resolved. *)
Lemma direct_mux_effect (id : Z) (w : World) :
  mux_resolved w ->
  exists w',
    direct_mux id w = Some (tt, w') /\
    trace (dev w') =
      trace (dev w) ++
      [drive GPIO1_ADDR (mux0 (i2c w)) (Z.testbit id 0);
       drive GPIO1_ADDR (mux1 (i2c w)) (Z.testbit id 1)] /\
    latch_bit w' GPIO1_ADDR 16 = Z.testbit id 0 /\
    latch_bit w' GPIO1_ADDR 19 = Z.testbit id 1 /\
    (forall n, 0 <= n -> n <> 16 -> n <> 19 ->
       latch_bit w' GPIO1_ADDR n = latch_bit w GPIO1_ADDR n) /\
    oe (gpio_hw (dev w') GPIO1_ADDR) = oe (gpio_hw (dev w) GPIO1_ADDR) /\
    datain (gpio_hw (dev w') GPIO1_ADDR)
      = datain (gpio_hw (dev w) GPIO1_ADDR) /\
    spi w' = spi w /\ i2c w' = i2c w /\
    (forall other, other <> GPIO1_ADDR ->
       gpio_hw (dev w') other = gpio_hw (dev w) other).
Proof.
  intros [H0 H1].
  rewrite direct_mux_by_bits, bind_gets. rewrite H0, H1.
  destruct (pin_level_effect
              {| pin := 0; base := Mapped GPIO1_ADDR; number := 16 |}
              w GPIO1_ADDR (Z.testbit id 0) eq_refl)
    as (w1 & Hrun1 & Ht1 & Hb1 & Hr1 & Hoe1 & Hin1 & Hs1 & Hi1 & Ho1);
    [cbn; lia|].
  destruct (pin_level_effect
              {| pin := 0; base := Mapped GPIO1_ADDR; number := 19 |}
              w1 GPIO1_ADDR (Z.testbit id 1) eq_refl)
    as (w2 & Hrun2 & Ht2 & Hb2 & Hr2 & Hoe2 & Hin2 & Hs2 & Hi2 & Ho2);
    [cbn; lia|].
  cbn [number] in Hb1, Hr1, Hb2, Hr2.
  exists w2.
  split.
  { rewrite (bind_Some _ _ w tt w1); [exact Hrun2|].
    destruct (Z.testbit id 0); exact Hrun1. }
  split; [rewrite Ht2, Ht1, <- app_assoc; reflexivity|].
  split; [rewrite Hr2 by lia; exact Hb1|].
  split; [exact Hb2|].
  split; [intros n Hn H16 H19; rewrite Hr2, Hr1 by lia; reflexivity|].
  split; [congruence|]. split; [congruence|].
  split; [congruence|]. split; [congruence|].
  intros other Hother. rewrite Ho2, Ho1 by assumption. reflexivity.
Qed.

(** X8. With the pins resolved, [direct_mux] returns for every id after
    two stores; the latches of GPIO1_16 and GPIO1_19 hold bits 0 and 1 of
    the id, and nothing else moves: the other latches of the bank, its
    direction bits, the other banks and the globals are as before. *)
Theorem direct_mux_touches_two_latches (id : Z) (w : World) :
  mux_resolved w ->
  exists w',
    direct_mux id w = Some (tt, w') /\
    events_of (direct_mux id) w =
      Some [drive GPIO1_ADDR (mux0 (i2c w)) (Z.testbit id 0);
            drive GPIO1_ADDR (mux1 (i2c w)) (Z.testbit id 1)] /\
    latch_bit w' GPIO1_ADDR 16 = Z.testbit id 0 /\
    latch_bit w' GPIO1_ADDR 19 = Z.testbit id 1 /\
    (forall n, 0 <= n -> n <> 16 -> n <> 19 ->
       latch_bit w' GPIO1_ADDR n = latch_bit w GPIO1_ADDR n) /\
    oe (gpio_hw (dev w') GPIO1_ADDR) = oe (gpio_hw (dev w) GPIO1_ADDR) /\
    spi w' = spi w /\ i2c w' = i2c w /\
    (forall other, other <> GPIO1_ADDR ->
       gpio_hw (dev w') other = gpio_hw (dev w) other).
Proof.
  intros Hmux.
  destruct (direct_mux_effect id w Hmux)
    as (w' & Hrun & Ht & H16 & H19 & Hrest & Hoe & _ & Hs & Hi & Ho).
  exists w'. split; [exact Hrun|].
  split; [exact (events_of_Some _ _ _ _ _ Hrun Ht)|]. auto 8.
Qed.

Lemma direct_mux_touches_two_latches_witness :
  mux_resolved (payload_world 0) /\
  exists w',
    direct_mux 7 (payload_world 0) = Some (tt, w') /\
    latch_bit w' GPIO1_ADDR 16 = true /\
    latch_bit w' GPIO1_ADDR 19 = true /\
    latch_bit w' GPIO1_ADDR 18 = latch_bit (payload_world 0) GPIO1_ADDR 18.
Proof.
  assert (Hmux : mux_resolved (payload_world 0)) by (split; reflexivity).
  split; [exact Hmux|].
  destruct (direct_mux_touches_two_latches 7 (payload_world 0) Hmux)
    as (w' & Hrun & _ & H16 & H19 & Hrest & _).
  exists w'. split; [exact Hrun|]. split; [exact H16|]. split; [exact H19|].
  apply Hrest; lia.
Defined.

Lemma gpio_regs_eq (a b : gpio_regs) :
  oe a = oe b -> dataout a = dataout b -> datain a = datain b -> a = b.
Proof. destruct a, b. cbn. by intros -> -> ->. Qed.

(** X9. Selections of the direct demultiplexer do not add up: after
    [direct_mux a] and then [direct_mux b] the register banks are exactly
    as after [direct_mux b] alone, whatever [a] was. *)
Theorem direct_mux_last_selection_wins (a b : Z) (w : World) :
  mux_resolved w ->
  exists wab wb,
    (direct_mux a ;; direct_mux b) w = Some (tt, wab) /\
    direct_mux b w = Some (tt, wb) /\
    forall phys, gpio_hw (dev wab) phys = gpio_hw (dev wb) phys.
Proof.
  intros Hmux.
  destruct (direct_mux_effect a w Hmux)
    as (wa & Hruna & _ & _ & _ & Hra & Hoea & Hina & _ & Hia & Hoa).
  assert (Hmuxa : mux_resolved wa) by (unfold mux_resolved; by rewrite Hia).
  destruct (direct_mux_effect b wa Hmuxa)
    as (wab & Hrunab & _ & H16ab & H19ab & Hrab & Hoeab & Hinab & _ & _ & Hoab).
  destruct (direct_mux_effect b w Hmux)
    as (wb & Hrunb & _ & H16b & H19b & Hrb & Hoeb & Hinb & _ & _ & Hob).
  exists wab, wb.
  split; [by rewrite (bind_Some _ _ _ _ _ Hruna)|].
  split; [exact Hrunb|].
  intros phys. destruct (Z.eq_dec phys GPIO1_ADDR) as [->|Hne].
  - apply gpio_regs_eq; [congruence| |congruence].
    apply Z.bits_inj'. intros n Hn.
    fold (latch_bit wab GPIO1_ADDR n). fold (latch_bit wb GPIO1_ADDR n).
    destruct (Z.eq_dec n 16) as [->|H16]; [congruence|].
    destruct (Z.eq_dec n 19) as [->|H19]; [congruence|].
    rewrite Hrab, Hra, Hrb by assumption. reflexivity.
  - rewrite Hoab, Hoa, Hob by assumption. reflexivity.
Qed.

Lemma direct_mux_last_selection_wins_witness :
  mux_resolved (payload_world 0) /\
  exists wab wb,
    (direct_mux 3 ;; direct_mux 0) (payload_world 0) = Some (tt, wab) /\
    direct_mux 0 (payload_world 0) = Some (tt, wb) /\
    gpio_hw (dev wab) GPIO1_ADDR = gpio_hw (dev wb) GPIO1_ADDR.
Proof.
  assert (Hmux : mux_resolved (payload_world 0)) by (split; reflexivity).
  split; [exact Hmux|].
  destruct (direct_mux_last_selection_wins 3 0 (payload_world 0) Hmux)
    as (wab & wb & Hab & Hb & Heq).
  exists wab, wb. auto.
Defined.

(** ** The payload profile, as an invariant *)

Lemma keeps_profile_in_sync {A} (m : M A) w r w' :
  keeps_profile m -> in_sync w -> m w = Some (r, w') -> in_sync w'.
Proof.
  intros Hm Hsync Hrun. destruct (Hm w r w' Hsync Hrun) as [Hp Hs].
  unfold in_sync in *. by rewrite Hp, Hs.
Qed.

Lemma keeps_profile_ret {A} (a : A) : keeps_profile (ret a).
Proof. intros w r w' _ H. injection H as <- <-. auto. Qed.

Lemma keeps_profile_bind {A B} (m : M A) (k : A -> M B) :
  keeps_profile m -> (forall a, keeps_profile (k a)) ->
  keeps_profile (bind m k).
Proof.
  intros Hm Hk w r w' Hsync Hrun. unfold bind in Hrun.
  destruct (m w) as [[a w1]|] eqn:E; [|discriminate].
  destruct (Hm w a w1 Hsync E) as [Hp1 Hs1].
  pose proof (keeps_profile_in_sync m w a w1 Hm Hsync E) as Hsync1.
  destruct (Hk a w1 r w' Hsync1 Hrun) as [Hp2 Hs2].
  split; congruence.
Qed.

Lemma keeps_profile_spi_transfer tx len : keeps_profile (spi_transfer tx len).
Proof.
  intros w r w' _ Hrun. destruct_world w.
  revert Hrun. unfold_spi. unfold_calls. red_state.
  intros H. injection H as <- <-. auto.
Qed.

Lemma keeps_profile_spi_mod_comm tx len : keeps_profile (spi_mod_comm tx len).
Proof.
  intros w r w' Hsync Hrun.
  destruct (base (ds_pin (spi w))) as [|phys] eqn:Hds.
  - exfalso. revert Hrun. destruct_world w. destruct ds as [dp db dn].
    cbn in Hds. subst db. unfold_spi. unfold_calls.
    split_profile mode bits; discriminate.
  - destruct (spi_mod_comm_runs w tx len phys Hds)
      as (w1 & Hrun1 & _ & Hs & _ & Hp).
    rewrite Hrun1 in Hrun. injection Hrun as <- <-. auto.
Qed.

Lemma keeps_profile_read_data address len :
  keeps_profile (read_data address len).
Proof.
  intros w r w' Hsync. destruct_world w. destruct ds as [dp [|phys] dn].
  - unfold read_data. run_bracketed mode bits.
  - destruct Hsync as [Hm Hb]. cbn in Hm, Hb. subst pm pb.
    unfold read_data. run_bracketed mode bits.
Qed.

Lemma keeps_profile_write_data address data len :
  keeps_profile (write_data address data len).
Proof.
  intros w r w' Hsync. destruct_world w.
  destruct Hsync as [Hm Hb]. cbn in Hm, Hb. subst pm pb.
  destruct ds as [dp [|phys] dn]; destruct cs as [cp [|cphys] cn];
    unfold write_data; run_bracketed mode bits.
Qed.

Lemma keeps_profile_gets {A} (f : World -> A) : keeps_profile (gets f).
Proof. intros w r w' _ H. injection H as <- <-. auto. Qed.

Lemma keeps_profile_reg_store p reg v : keeps_profile (reg_store p reg v).
Proof.
  intros w r w' _ Hrun. destruct p as [|phys]; [discriminate|].
  injection Hrun as <- <-. auto.
Qed.

Lemma keeps_profile_direct_mux id : keeps_profile (direct_mux id).
Proof.
  unfold direct_mux, bbb_mmio_set_high, bbb_mmio_set_low,
    mmio_set_high, mmio_set_low.
  apply keeps_profile_bind; [apply keeps_profile_gets|]. intros g.
  apply keeps_profile_bind; [|intros _].
  - destruct (CInt.truth _); apply keeps_profile_reg_store.
  - destruct (CInt.truth _); apply keeps_profile_reg_store.
Qed.

Lemma keeps_profile_direct_ext_mux id : keeps_profile (direct_ext_mux id).
Proof.
  unfold direct_ext_mux, select_module.
  apply keeps_profile_bind; [apply keeps_profile_gets|]. intros g.
  apply keeps_profile_bind; [apply keeps_profile_spi_mod_comm|]. intros _.
  apply keeps_profile_bind; [apply keeps_profile_spi_transfer|]. intros _.
  apply keeps_profile_ret.
Qed.

Lemma keeps_profile_set_ext_addr addr : keeps_profile (set_ext_addr addr).
Proof.
  intros w r w' _. unfold set_ext_addr.
  destruct ((addr >? 15) || (addr =? 0)); intros H; injection H as <- <-;
    auto.
Qed.

Lemma keeps_profile_route id : keeps_profile (bme_read_route id).
Proof.
  unfold bme_read_route.
  apply keeps_profile_bind; [apply keeps_profile_direct_mux|]. intros _.
  destruct (ext_mux_id id >=? 0);
    [apply keeps_profile_direct_ext_mux|apply keeps_profile_ret].
Qed.

Lemma keeps_profile_run_call c : keeps_profile (run_call c).
Proof.
  assert (Hunit : forall (m : M Z), keeps_profile m ->
                                   keeps_profile (m ;; ret tt)).
  { intros m Hm. apply keeps_profile_bind; [exact Hm|].
    intros _. apply keeps_profile_ret. }
  destruct c; cbn [run_call].
  - apply Hunit, keeps_profile_spi_transfer.
  - apply Hunit, keeps_profile_spi_mod_comm.
  - apply Hunit, keeps_profile_spi_mod_comm.
  - apply Hunit, keeps_profile_spi_mod_comm.
  - apply Hunit, keeps_profile_write_data.
  - apply Hunit, keeps_profile_read_data.
  - apply Hunit, keeps_profile_spi_mod_comm.
  - apply keeps_profile_direct_mux.
  - apply keeps_profile_direct_ext_mux.
  - apply Hunit, keeps_profile_set_ext_addr.
  - apply keeps_profile_route.
Qed.

(** X10. The payload profile is an invariant of the driver.  Take any
    program of calls to the transport and to the routing ([spi_transfer],
    [spi_mod_comm], [select_module], [transfer_module], [write_data],
    [read_data], [unselect_i2c_extender], [direct_mux], [direct_ext_mux],
    [set_ext_addr], the routing of [bme_read]), started with the
    controller on the profile remembered in [_mode] and [_bits]: if it
    returns, the controller is on that profile again, whatever the kernel
    answered to the transfers in between, and [_mode], [_bits] and the
    other globals of the transport are as they were. *)
Theorem payload_profile_is_invariant (l : list driver_call) (w w' : World) :
  in_sync w ->
  run_calls l w = Some (tt, w') ->
  in_sync w' /\ spidev (dev w') = spidev (dev w) /\ spi w' = spi w.
Proof.
  revert w. induction l as [|c l IH]; intros w Hsync Hrun.
  - injection Hrun as <-. auto.
  - cbn [run_calls] in Hrun. unfold bind in Hrun.
    destruct (run_call c w) as [[[] w1]|] eqn:E; [|discriminate].
    destruct (keeps_profile_run_call c w tt w1 Hsync E) as [Hp1 Hs1].
    pose proof (keeps_profile_in_sync _ _ _ _ (keeps_profile_run_call c)
                  Hsync E) as Hsync1.
    destruct (IH w1 Hsync1 Hrun) as (Hsync' & Hp & Hs).
    split; [exact Hsync'|]. split; congruence.
Qed.

Lemma payload_profile_is_invariant_witness :
  in_sync (payload_world (-1)) /\
  exists w',
    run_calls [CallRoute {| mux_id := 1; ext_mux_id := 4; id_fd := 3 |};
               CallReadData 3 2; CallWriteData 3 [1; 2] 2; CallUnselect]
      (payload_world (-1)) = Some (tt, w') /\
    spidev (dev w') = {| p_mode := 0; p_bits := 16; p_speed := 1000000 |}.
Proof.
  assert (Hsync : in_sync (payload_world (-1))) by (split; reflexivity).
  split; [exact Hsync|].
  destruct (run_calls
              [CallRoute {| mux_id := 1; ext_mux_id := 4; id_fd := 3 |};
               CallReadData 3 2; CallWriteData 3 [1; 2] 2; CallUnselect]
              (payload_world (-1))) as [[[] w']|] eqn:Hrun.
  - exists w'. split; [reflexivity|].
    destruct (payload_profile_is_invariant _ _ _ Hsync Hrun) as (_ & Hp & _).
    rewrite Hp. reflexivity.
  - exfalso.
    assert (H : match run_calls
                [CallRoute {| mux_id := 1; ext_mux_id := 4; id_fd := 3 |};
                 CallReadData 3 2; CallWriteData 3 [1; 2] 2; CallUnselect]
                (payload_world (-1)) with
                | Some _ => true
                | None => false
                end = true) by (vm_compute; reflexivity).
    rewrite Hrun in H. discriminate H.
Defined.

(** ** Results and levels of the transport *)

(** X11. [read_data] returns what [read] returned and [write_data] what
    [write] returned, as they are (a byte count, or -1): the results of the
    selects and of the dummy transfers before them are dropped, so that a
    failed priming is not reported. *)
Theorem data_result_is_the_last_call (w : World) (address : Z)
    (data : list Z) (n phys cphys : Z) :
  base (ds_pin (spi w)) = Mapped phys ->
  base (cs_pin (spi w)) = Mapped cphys ->
  fst <$> read_data address n w = Some (upcoming w 4) /\
  fst <$> write_data address data n w = Some (upcoming w 1).
Proof.
  destruct_world w. destruct ds as [dp db dn]. destruct cs as [cp cb cn].
  cbn. intros -> ->.
  split.
  - unfold read_data. unfold_spi. unfold_calls.
    split_profile mode bits; reflexivity.
  - unfold write_data. unfold_spi. unfold_calls.
    split_profile mode bits; reflexivity.
Qed.

Lemma data_result_is_the_last_call_witness :
  fst <$> read_data 3 4
    (with_dev (fun d => {| spidev := spidev d; gpio_hw := gpio_hw d;
                           kernel := fun n => if (n =? 8)%nat then 4 else -1;
                           received := received d;
                           asked := asked d; trace := trace d |})
       (payload_world 0)) = Some 4.
Proof.
  exact (proj1 (data_result_is_the_last_call
    (with_dev (fun d => {| spidev := spidev d; gpio_hw := gpio_hw d;
                           kernel := fun n => if (n =? 8)%nat then 4 else -1;
                           received := received d;
                           asked := asked d; trace := trace d |})
       (payload_world 0)) 3 [] 4 GPIO1_ADDR GPIO0_ADDR eq_refl eq_refl)).
Defined.

(** X12. The two profile switches are inverse to each other.  From the
    payload profile, [to_module_profile] (lines 138-141) leaves the
    controller at mode 3 and 8 bits per word, the profile of the control
    frames, and [to_payload_profile] (lines 158-161) then restores the
    profile there was; neither touches the speed. *)
Theorem profile_switch_round_trip (w : World) :
  in_sync w ->
  exists w1 w2,
    to_module_profile w = Some (tt, w1) /\
    spidev (dev w1) =
      {| p_mode := 3; p_bits := 8; p_speed := p_speed (spidev (dev w)) |} /\
    to_payload_profile w1 = Some (tt, w2) /\
    spidev (dev w2) = spidev (dev w) /\
    trace (dev w2) =
      trace (dev w) ++ module_profile_calls (spi w)
                    ++ payload_profile_calls (spi w).
Proof.
  destruct_world w. intros [Hpm Hpb]. cbn in Hpm, Hpb. subst pm pb.
  unfold_spi. unfold_calls.
  split_profile mode bits;
    do 2 eexists;
    (split; [reflexivity|]); red_state;
    repeat match goal with
           | H : (_ =? _) = true |- _ => apply Z.eqb_eq in H; subst
           end;
    (split; [reflexivity|]);
    rewrite ?Z.eqb_refl; rewrite ?Hm, ?Hb; red_state;
    (split; [reflexivity|]); (split; [reflexivity|]);
    rewrite <- ?app_assoc; rewrite ?app_nil_r; reflexivity.
Qed.

Lemma profile_switch_round_trip_witness :
  in_sync (payload_world 0) /\
  exists w1 w2,
    to_module_profile (payload_world 0) = Some (tt, w1) /\
    spidev (dev w1) = {| p_mode := 3; p_bits := 8; p_speed := 1000000 |} /\
    to_payload_profile w1 = Some (tt, w2) /\
    spidev (dev w2) = {| p_mode := 0; p_bits := 16; p_speed := 1000000 |}.
Proof.
  assert (Hsync : in_sync (payload_world 0)) by (split; reflexivity).
  split; [exact Hsync|].
  destruct (profile_switch_round_trip (payload_world 0) Hsync)
    as (w1 & w2 & H1 & Hp1 & H2 & Hp2 & _).
  exists w1, w2. split; [exact H1|]. split; [exact Hp1|].
  split; [exact H2|]. rewrite Hp2. reflexivity.
Defined.

(** What a control transfer does to the register banks. *)
Lemma spi_mod_comm_banks w tx n phys :
  base (ds_pin (spi w)) = Mapped phys ->
  exists w',
    spi_mod_comm tx n w = Some (status_of (upcoming w 0), w') /\
    gpio_hw (dev w') =
      update_bank phys
        (hw_store (Z.quot MMIO_GPIO_SETDATAOUT 4) (pin_mask (ds_pin (spi w))))
        (update_bank phys
           (hw_store (Z.quot MMIO_GPIO_CLEARDATAOUT 4)
              (pin_mask (ds_pin (spi w))))
           (gpio_hw (dev w))).
Proof.
  destruct_world w. destruct ds as [dp db dn]. cbn. intros ->.
  unfold_spi. unfold_calls.
  split_profile mode bits; eexists; split; reflexivity.
Qed.

(** X13. The module-select pin is released after every control transfer:
    when [spi_mod_comm] returns, with success or with -1, the output latch
    of [ds_pin] is high, and the other latches and the direction bits of
    its bank are as before. *)
Theorem module_select_idles_high (w : World) (tx : list Z) (n phys : Z) :
  base (ds_pin (spi w)) = Mapped phys ->
  0 <= number (ds_pin (spi w)) <= 31 ->
  exists w',
    spi_mod_comm tx n w = Some (status_of (upcoming w 0), w') /\
    latch_bit w' phys (number (ds_pin (spi w))) = true /\
    (forall m, 0 <= m -> m <> number (ds_pin (spi w)) ->
       latch_bit w' phys m = latch_bit w phys m) /\
    oe (gpio_hw (dev w') phys) = oe (gpio_hw (dev w) phys).
Proof.
  intros Hds Hnum.
  destruct (spi_mod_comm_banks w tx n phys Hds) as (w' & Hrun & Hhw).
  exists w'. split; [exact Hrun|].
  unfold latch_bit. rewrite Hhw, !update_bank_same, latch_set, latch_clear.
  rewrite (pin_mask_pow2 _ Hnum).
  repeat split.
  - rewrite testbit_set_mask by lia. rewrite Z.eqb_refl. apply orb_true_r.
  - intros m Hm Hne.
    rewrite testbit_set_mask, testbit_ldiff_mask by lia.
    replace (number (ds_pin (spi w)) =? m) with false
      by (symmetry; apply Z.eqb_neq; lia).
    cbn. rewrite andb_true_r. apply orb_false_r.
Qed.

Lemma module_select_idles_high_witness :
  (0 <= number (ds_pin (spi (payload_world (-1)))) <= 31) /\
  exists w',
    spi_mod_comm [26] 1 (payload_world (-1)) = Some (-1, w') /\
    latch_bit w' GPIO1_ADDR 18 = true.
Proof.
  assert (Hnum : 0 <= number (ds_pin (spi (payload_world (-1)))) <= 31)
    by (vm_compute; split; discriminate).
  split; [exact Hnum|].
  destruct (module_select_idles_high (payload_world (-1)) [26] 1 GPIO1_ADDR
              eq_refl Hnum) as (w' & Hrun & Hbit & _).
  exists w'. split; [exact Hrun|exact Hbit].
Defined.

(** ** Routing through the extender, for every channel *)

Lemma set_ext_addr_accepts w addr :
  1 <= addr <= 15 ->
  set_ext_addr addr w = Some (0, with_i2c (set_ext_addr_field addr) w).
Proof.
  intros H. unfold set_ext_addr.
  replace ((addr >? 15) || (addr =? 0)) with false; [reflexivity|].
  symmetry. apply orb_false_iff. split; [|apply Z.eqb_neq; lia].
  rewrite Z.gtb_ltb. apply Z.ltb_ge. lia.
Qed.

Lemma route_events w id phys :
  mux_resolved w ->
  base (ds_pin (spi w)) = Mapped phys ->
  0 <= ext_mux_id id <= 127 ->
  events_of (bme_read_route id) w =
    Some ([drive GPIO1_ADDR (mux0 (i2c w)) (Z.testbit (mux_id id) 0);
           drive GPIO1_ADDR (mux1 (i2c w)) (Z.testbit (mux_id id) 1)] ++
          control_transfer (spi w) phys
            [select_module_msg (ext_addr (i2c w)) 2] 1 (upcoming w 0) ++
          [payload_transfer (spi w) [ext_mux_id id] 1 (upcoming w 1)]).
Proof.
  intros [Hmux0 Hmux1] Hds Hext.
  assert (Hyes : (ext_mux_id id >=? 0) = true)
    by (rewrite Z.geb_leb; apply Z.leb_le; lia).
  assert (Hbyte : CInt.to_uint8 (ext_mux_id id) = ext_mux_id id)
    by (apply Z.mod_small; lia).
  destruct_world w. destruct g as [m0 m1 pc ea]. destruct ds as [dp db dn].
  cbv [i2c mux0 mux1] in Hmux0, Hmux1. cbv [spi ds_pin base] in Hds.
  subst m0 m1 db.
  unfold bme_read_route. rewrite Hyes, Hbyte.
  unfold events_of, direct_mux, bbb_mmio_set_high, bbb_mmio_set_low.
  rewrite !mux_test by lia.
  unfold direct_ext_mux.
  destruct (Z.testbit (mux_id id) 0); destruct (Z.testbit (mux_id id) 1);
    unfold_spi; unfold_calls;
    split_profile mode bits; flatten_trace; reflexivity.
Qed.

(** X14. Configuration and routing compose.  After [set_ext_addr] accepted
    a board address, the routing of [bme_read] to any channel with an
    extender id in 0..127 sets the two demultiplexer pins to the two low
    bits of the direct id, then sends one control frame that decodes to
    that board address and to module 2, then the extender id as the one
    byte of a payload transfer. *)
Theorem configured_address_reaches_the_frame (w : World) (addr : Z)
    (id : identifier) (phys : Z) :
  mux_resolved w ->
  base (ds_pin (spi w)) = Mapped phys ->
  1 <= addr <= 15 ->
  0 <= ext_mux_id id <= 127 ->
  events_of (set_ext_addr addr ;; bme_read_route id) w =
    Some ([drive GPIO1_ADDR (mux0 (i2c w)) (Z.testbit (mux_id id) 0);
           drive GPIO1_ADDR (mux1 (i2c w)) (Z.testbit (mux_id id) 1)] ++
          control_transfer (spi w) phys [select_module_msg addr 2] 1
            (upcoming w 0) ++
          [payload_transfer (spi w) [ext_mux_id id] 1 (upcoming w 1)]) /\
  Frame.board_address (select_module_msg addr 2) = addr /\
  Frame.module (select_module_msg addr 2) = 2.
Proof.
  intros Hmux Hds Haddr Hext. split.
  - pose proof (route_events (with_i2c (set_ext_addr_field addr) w) id phys
                  Hmux Hds Hext) as Hroute.
    unfold events_of in *.
    rewrite (bind_Some _ _ _ _ _ (set_ext_addr_accepts w addr Haddr)).
    exact Hroute.
  - assert (Hm : 0 <= 2 <= 7) by lia.
    destruct (frame_ok_fields addr 2 Haddr Hm)
      as (_ & _ & _ & _ & Hboard & Hmodule).
    split; assumption.
Qed.

Lemma configured_address_reaches_the_frame_witness :
  mux_resolved (payload_world 0) /\
  (1 <= 9 <= 15) /\ (0 <= 6 <= 127) /\
  transfers <$>
    events_of (set_ext_addr 9 ;;
               bme_read_route {| mux_id := 3; ext_mux_id := 6; id_fd := 3 |})
      (payload_world 0) =
    Some [EvMessage 1 {| tx_buf := [74]; len := 1; delay_usecs := 0;
                         speed_hz := 1000000; bits_per_word := 8 |} 0;
          EvMessage 1 {| tx_buf := [6]; len := 1; delay_usecs := 0;
                         speed_hz := 1000000; bits_per_word := 16 |} 0] /\
  Frame.board_address 74 = 9.
Proof.
  assert (Hmux : mux_resolved (payload_world 0)) by (split; reflexivity).
  assert (Haddr : 1 <= 9 <= 15) by lia.
  assert (Hext : 0 <= 6 <= 127) by lia.
  destruct (configured_address_reaches_the_frame (payload_world 0) 9
              {| mux_id := 3; ext_mux_id := 6; id_fd := 3 |} GPIO1_ADDR
              Hmux eq_refl Haddr Hext) as (Hev & Hboard & _).
  split; [exact Hmux|]. split; [exact Haddr|]. split; [exact Hext|].
  split; [rewrite Hev; vm_compute; reflexivity|exact Hboard].
Defined.

(** ** Pin resolution and the bank cache *)

Lemma deref_assign_eq x g w : deref x (assign x g w) = g.
Proof. by destruct x. Qed.

Lemma deref_assign_ne x y g w : y <> x -> deref y (assign x g w) = deref y w.
Proof. by destruct x, y. Qed.

(** Every way [map_bank] returns. *)
Lemma map_bank_outcome bank w r w' :
  map_bank bank w = Some (r, w') ->
  i2c w' = i2c w /\
  cs_pin (spi w') = cs_pin (spi w) /\ ds_pin (spi w') = ds_pin (spi w) /\
  gpio_hw (dev w') = gpio_hw (dev w) /\
  match r with
  | inl e => e <> MMIO_SUCCESS /\ spi w' = spi w
  | inr p =>
      exists phys,
        p = Mapped phys /\
        gpio_base (spi w') !! Z.to_nat bank = Some (Mapped phys) /\
        ((gpio_base (spi w) !! Z.to_nat bank = Some (Mapped phys) /\ w' = w)
         \/ (gpio_base (spi w) !! Z.to_nat bank = Some NULL /\
             gpio_base (spi w')
               = <[Z.to_nat bank := Mapped phys]> (gpio_base (spi w))))
  end.
Proof.
  destruct (gpio_base (spi w) !! Z.to_nat bank) as [[|phys]|] eqn:Hlook.
  - rewrite (map_bank_uncached w bank Hlook). cbv zeta.
    pose proof (lookup_lt_Some _ _ _ Hlook) as Hlen.
    destruct (upcoming w 0 =? -1);
      [intros H; injection H as <- <-; repeat split; discriminate|].
    destruct (upcoming w 1 =? MAP_FAILED);
      [intros H; injection H as <- <-; repeat split; discriminate|].
    intros H; injection H as <- <-. repeat split.
    eexists. split; [reflexivity|].
    split; [|right; split; reflexivity].
    change (<[Z.to_nat bank := Mapped (default 0 (gpio_addresses !! Z.to_nat bank))]>
              (gpio_base (spi w)) !! Z.to_nat bank
            = Some (Mapped (default 0 (gpio_addresses !! Z.to_nat bank)))).
    by apply list_lookup_insert_eq.
  - rewrite (map_bank_cached w bank phys Hlook).
    intros H; injection H as <- <-. repeat split.
    exists phys. auto.
  - unfold map_bank. rewrite bind_gets, Hlook. discriminate.
Qed.

(** Every way [mmio_get_gpio] returns. *)
Lemma mmio_get_gpio_outcome x w e w1 :
  mmio_get_gpio x w = Some (e, w1) ->
  gpio_hw (dev w1) = gpio_hw (dev w) /\
  ((e <> MMIO_SUCCESS /\ spi w1 = spi w /\ i2c w1 = i2c w) \/
   (e = MMIO_SUCCESS /\
    0 <= pin (deref x w) < 128 /\
    exists phys,
      deref x w1 = {| pin := 0; base := Mapped phys;
                      number := Z.rem (pin (deref x w)) 32 |} /\
      (forall y, y <> x -> deref y w1 = deref y w) /\
      gpio_base (spi w1) !! Z.to_nat (Z.quot (pin (deref x w)) 32)
        = Some (Mapped phys) /\
      ((gpio_base (spi w) !! Z.to_nat (Z.quot (pin (deref x w)) 32)
          = Some (Mapped phys) /\
        gpio_base (spi w1) = gpio_base (spi w) /\
        trace (dev w1) = trace (dev w))
       \/ (gpio_base (spi w) !! Z.to_nat (Z.quot (pin (deref x w)) 32)
             = Some NULL /\
           gpio_base (spi w1)
             = <[Z.to_nat (Z.quot (pin (deref x w)) 32) := Mapped phys]>
                 (gpio_base (spi w)))))).
Proof.
  unfold mmio_get_gpio. rewrite bind_gets.
  destruct ((Z.quot (pin (deref x w)) 32 <? 0)
            || (Z.quot (pin (deref x w)) 32 >? 3)) eqn:Hbank.
  { intros H; injection H as <- <-. split; [reflexivity|].
    left. repeat split. discriminate. }
  destruct ((Z.rem (pin (deref x w)) 32 <? 0)
            || (Z.rem (pin (deref x w)) 32 >? 31)) eqn:Hbit.
  { intros H; injection H as <- <-. split; [reflexivity|].
    left. repeat split. discriminate. }
  apply orb_false_iff in Hbank as [B1 B2], Hbit as [B3 B4].
  rewrite Z.gtb_ltb in B2, B4. apply Z.ltb_ge in B1, B2, B3, B4.
  assert (Hpin : 0 <= pin (deref x w) < 128).
  { pose proof (Z.quot_rem' (pin (deref x w)) 32). lia. }
  unfold bind at 1.
  destruct (map_bank (Z.quot (pin (deref x w)) 32) w) as [[r w']|] eqn:Hmap;
    [|discriminate].
  destruct (map_bank_outcome _ _ _ _ Hmap) as (Hi & Hcs & Hds & Hhw & Hr).
  destruct r as [e'|p].
  - destruct Hr as [Hne Hs].
    intros H; injection H as <- <-. split; [exact Hhw|]. left. auto.
  - destruct Hr as (phys & -> & Hlook & Hcache).
    rewrite bind_modify. intros H; injection H as <- <-.
    split; [destruct x; exact Hhw|].
    right. split; [reflexivity|]. split; [exact Hpin|].
    exists phys. split; [apply deref_assign_eq|].
    split.
    { intros y Hy. rewrite deref_assign_ne by exact Hy.
      destruct y; cbn [deref]; congruence. }
    split; [destruct x; exact Hlook|].
    destruct Hcache as [[Hold ->] | [Hold Hnew]].
    + left. split; [exact Hold|]. split; destruct x; reflexivity.
    + right. split; [exact Hold|]. destruct x; exact Hnew.
Qed.

(** X15. The bank cache is shared: once [mmio_get_gpio] resolved a pin,
    resolving another pin of the same bank succeeds without any device
    call (no open, no mmap), leaves the cache as it is, and gives the
    second pin the very pointer of the first, so that both reach the same
    registers. *)
Theorem bank_mapping_is_shared (x y : gpio_var) (w w1 : World) :
  y <> x ->
  mmio_get_gpio x w = Some (MMIO_SUCCESS, w1) ->
  0 <= pin (deref y w) < 128 ->
  Z.quot (pin (deref y w)) 32 = Z.quot (pin (deref x w)) 32 ->
  exists w2,
    mmio_get_gpio y w1 = Some (MMIO_SUCCESS, w2) /\
    events_of (mmio_get_gpio y) w1 = Some [] /\
    gpio_base (spi w2) = gpio_base (spi w1) /\
    base (deref y w2) = base (deref x w2) /\
    number (deref y w2) = Z.rem (pin (deref y w)) 32.
Proof.
  intros Hyx Hx Hpin Hsame.
  destruct (mmio_get_gpio_outcome x w _ w1 Hx)
    as (_ & [(Hne & _) | (_ & _ & phys & Hxpin & Hothers & Hlook & _)]);
    [contradiction|].
  pose proof (Hothers y Hyx) as Hy.
  assert (Hrun : mmio_get_gpio y w1 =
                 Some (MMIO_SUCCESS,
                       assign y {| pin := 0; base := Mapped phys;
                                   number := Z.rem (pin (deref y w)) 32 |} w1)).
  { rewrite mmio_get_gpio_valid by (rewrite Hy; exact Hpin).
    rewrite Hy, Hsame.
    rewrite (bind_Some _ _ _ _ _ (map_bank_cached w1 _ phys Hlook)).
    reflexivity. }
  eexists. split; [exact Hrun|].
  split.
  { apply (events_of_Some _ _ _ _ _ Hrun). rewrite app_nil_r.
    by destruct y. }
  split; [by destruct y|].
  rewrite deref_assign_eq, deref_assign_ne by congruence.
  rewrite Hxpin. split; reflexivity.
Qed.

Lemma bank_mapping_is_shared_witness :
  The_mux1 <> The_ds_pin /\
  (0 <= pin (deref The_mux1 (boot (reset_devices 0))) < 128) /\
  exists w1 w2,
    mmio_get_gpio The_ds_pin (boot (reset_devices 0))
      = Some (MMIO_SUCCESS, w1) /\
    mmio_get_gpio The_mux1 w1 = Some (MMIO_SUCCESS, w2) /\
    events_of (mmio_get_gpio The_mux1) w1 = Some [] /\
    base (deref The_mux1 w2) = base (deref The_ds_pin w2).
Proof.
  assert (Hne : The_mux1 <> The_ds_pin) by discriminate.
  assert (Hpin : 0 <= pin (deref The_mux1 (boot (reset_devices 0))) < 128)
    by (vm_compute; split; [discriminate|reflexivity]).
  split; [exact Hne|]. split; [exact Hpin|].
  destruct (mmio_get_gpio The_ds_pin (boot (reset_devices 0)))
    as [[e w1]|] eqn:Hx; [|vm_compute in Hx; discriminate Hx].
  assert (He : e = MMIO_SUCCESS).
  { assert (H : fst <$> mmio_get_gpio The_ds_pin (boot (reset_devices 0))
                = Some MMIO_SUCCESS) by (vm_compute; reflexivity).
    rewrite Hx in H. by injection H. }
  subst e.
  destruct (bank_mapping_is_shared The_ds_pin The_mux1
              (boot (reset_devices 0)) w1 Hne Hx Hpin eq_refl)
    as (w2 & Hy & Hev & _ & Hbase & _).
  exists w1, w2. auto.
Defined.

(** X16. A failed resolution is not remembered.  When [mmio_get_gpio]
    returns an error, the bank cache, the pin and every other global are
    as before; only the calls made show in the trace.  So the next call
    starts over: after an open of /dev/mem that failed, a second call to
    which the kernel grants the open and the mapping resolves the pin. *)
Theorem failed_resolution_is_retried (x : gpio_var) (w : World) :
  (forall e w1,
     mmio_get_gpio x w = Some (e, w1) -> e <> MMIO_SUCCESS ->
     spi w1 = spi w /\ i2c w1 = i2c w /\
     gpio_hw (dev w1) = gpio_hw (dev w)) /\
  (0 <= pin (deref x w) < 128 ->
   gpio_base (spi w) !! Z.to_nat (Z.quot (pin (deref x w)) 32) = Some NULL ->
   upcoming w 0 = -1 ->
   upcoming w 1 <> -1 -> upcoming w 2 <> MAP_FAILED ->
   exists w1 w2,
     mmio_get_gpio x w = Some (MMIO_ERROR_DEVMEM, w1) /\
     events_of (mmio_get_gpio x) w = Some [EvOpen "/dev/mem" (-1)] /\
     mmio_get_gpio x w1 = Some (MMIO_SUCCESS, w2) /\
     base (deref x w2) <> NULL).
Proof.
  split.
  - intros e w1 Hrun Hne.
    destruct (mmio_get_gpio_outcome x w e w1 Hrun)
      as (Hhw & [(_ & Hs & Hi) | (He & _)]); [auto|contradiction].
  - intros Hpin Hlook Hopen Hopen2 Hmap.
    assert (Hrun1 : mmio_get_gpio x w =
                    Some (MMIO_ERROR_DEVMEM,
                          with_dev (log (EvOpen "/dev/mem" (upcoming w 0)))
                            (with_dev answered w))).
    { rewrite (mmio_get_gpio_valid x w Hpin). unfold bind.
      rewrite (map_bank_uncached w _ Hlook). cbv zeta.
      rewrite Hopen. reflexivity. }
    set (w1 := with_dev (log (EvOpen "/dev/mem" (upcoming w 0)))
                 (with_dev answered w)) in *.
    assert (Hd : deref x w1 = deref x w) by (by destruct x).
    assert (Hrun2 : exists w2, mmio_get_gpio x w1 = Some (MMIO_SUCCESS, w2) /\
                               base (deref x w2) <> NULL).
    { rewrite (mmio_get_gpio_valid x w1) by (rewrite Hd; exact Hpin).
      rewrite Hd. unfold bind at 1.
      rewrite (map_bank_uncached w1 _ Hlook). cbv zeta.
      change (upcoming w1 0) with (upcoming w 1).
      change (upcoming w1 1) with (upcoming w 2).
      replace (upcoming w 1 =? -1) with false
        by (symmetry; by apply Z.eqb_neq).
      replace (upcoming w 2 =? MAP_FAILED) with false
        by (symmetry; by apply Z.eqb_neq).
      rewrite bind_modify. eexists. split; [reflexivity|].
      rewrite deref_assign_eq. discriminate. }
    destruct Hrun2 as (w2 & Hrun2 & Hbase).
    exists w1, w2. split; [exact Hrun1|].
    split; [|split; [exact Hrun2|exact Hbase]].
    apply (events_of_Some _ _ _ _ _ Hrun1).
    subst w1. rewrite Hopen. reflexivity.
Qed.

Lemma failed_resolution_is_retried_witness :
  exists w1 w2,
    mmio_get_gpio The_mux0
      (boot {| spidev := spidev (reset_devices 0);
               gpio_hw := gpio_hw (reset_devices 0);
               kernel := fun n => if (n =? 0)%nat then -1 else 0;
               received := fun _ => 0;
               asked := 0; trace := [] |})
      = Some (MMIO_ERROR_DEVMEM, w1) /\
    mmio_get_gpio The_mux0 w1 = Some (MMIO_SUCCESS, w2) /\
    base (deref The_mux0 w2) <> NULL.
Proof.
  destruct (proj2 (failed_resolution_is_retried The_mux0
      (boot {| spidev := spidev (reset_devices 0);
               gpio_hw := gpio_hw (reset_devices 0);
               kernel := fun n => if (n =? 0)%nat then -1 else 0;
               received := fun _ => 0;
               asked := 0; trace := [] |})))
    as (w1 & w2 & H1 & _ & H2 & H3).
  - vm_compute. split; [discriminate|reflexivity].
  - reflexivity.
  - reflexivity.
  - vm_compute. discriminate.
  - vm_compute. discriminate.
  - exists w1, w2. auto.
Defined.

(** X17. Resolving a pin twice loses it.  [mmio_get_gpio] clears the whole
    structure, [pin] included, before it fills in the pointer and the bit;
    a second successful call on the same structure therefore reads pin 0,
    and leaves the structure on bit 0 of bank 0, whatever the pin was. *)
Theorem resolving_twice_loses_the_pin (x : gpio_var) (w w1 w2 : World) :
  mmio_get_gpio x w = Some (MMIO_SUCCESS, w1) ->
  mmio_get_gpio x w1 = Some (MMIO_SUCCESS, w2) ->
  pin (deref x w1) = 0 /\
  number (deref x w1) = Z.rem (pin (deref x w)) 32 /\
  exists phys,
    deref x w2 = {| pin := 0; base := Mapped phys; number := 0 |} /\
    gpio_base (spi w2) !! 0%nat = Some (Mapped phys).
Proof.
  intros H1 H2.
  destruct (mmio_get_gpio_outcome x w _ w1 H1)
    as (_ & [(Hne & _) | (_ & _ & phys1 & Hpin1 & _)]); [contradiction|].
  destruct (mmio_get_gpio_outcome x w1 _ w2 H2)
    as (_ & [(Hne & _) | (_ & _ & phys2 & Hpin2 & _ & Hlook & _)]);
    [contradiction|].
  rewrite Hpin1 in Hpin2, Hlook. cbn [pin] in Hpin2, Hlook.
  rewrite Hpin1. cbn [pin number].
  split; [reflexivity|]. split; [reflexivity|].
  exists phys2. split; [exact Hpin2|exact Hlook].
Qed.

Lemma resolving_twice_loses_the_pin_witness :
  exists w1 w2,
    mmio_get_gpio The_ds_pin (boot (reset_devices 0))
      = Some (MMIO_SUCCESS, w1) /\
    number (deref The_ds_pin w1) = 18 /\
    mmio_get_gpio The_ds_pin w1 = Some (MMIO_SUCCESS, w2) /\
    deref The_ds_pin w2
      = {| pin := 0; base := Mapped GPIO0_ADDR; number := 0 |}.
Proof.
  assert (Hc : (fun r => (fst r, deref The_ds_pin (snd r)))
                 <$> (mmio_get_gpio The_ds_pin ;; mmio_get_gpio The_ds_pin)
                       (boot (reset_devices 0))
               = Some (MMIO_SUCCESS,
                       {| pin := 0; base := Mapped GPIO0_ADDR; number := 0 |}))
    by (vm_compute; reflexivity).
  assert (Hc1 : fst <$> mmio_get_gpio The_ds_pin (boot (reset_devices 0))
                = Some MMIO_SUCCESS) by (vm_compute; reflexivity).
  unfold bind in Hc.
  destruct (mmio_get_gpio The_ds_pin (boot (reset_devices 0)))
    as [[e w1]|] eqn:H1; [|discriminate Hc].
  injection Hc1 as ->.
  destruct (mmio_get_gpio The_ds_pin w1) as [[e2 w2]|] eqn:H2;
    [|discriminate Hc].
  injection Hc as -> Hd.
  destruct (resolving_twice_loses_the_pin The_ds_pin _ w1 w2 H1 H2)
    as (_ & Hnum & _).
  exists w1, w2. split; [reflexivity|]. split; [exact Hnum|].
  split; [exact H2|exact Hd].
Defined.

(** ** The first call of [configure_mux] *)

(** X18. [configure_mux] has no way to report a failure on its first call.
    From the program's initial state it returns 0, with the flag set and
    both pins resolved, or it does not return: when bank 1 is not mapped
    yet and the kernel refuses the open of /dev/mem or the mapping, line
    160 stores through the NULL pointer that [mux0] still holds. *)
Theorem configure_mux_failure_is_a_crash (w : World) :
  mux_unresolved w ->
  (forall r w1,
     configure_mux w = Some (r, w1) ->
     r = 0 /\ pins_configured (i2c w1) = 1 /\ mux_resolved w1) /\
  (gpio_base (spi w) !! 1%nat = Some NULL ->
   upcoming w 0 = -1 \/ upcoming w 1 = MAP_FAILED ->
   configure_mux w = None).
Proof.
  intros Hw. split.
  - intros r w1 Hrun.
    destruct (configure_mux_first_call w Hw) as [Hcrash | (w1' & Hrun' & H)].
    + congruence.
    + rewrite Hrun' in Hrun. injection Hrun as <- <-. auto.
  - intros Hlook Hfail. destruct Hw as (H0 & _ & Hpc & _).
    assert (Hpin : 0 <= pin (deref The_mux0 w) < 128)
      by (cbv [deref]; rewrite H0; cbv [pin P9_15]; lia).
    assert (Hget : exists e w1, mmio_get_gpio The_mux0 w = Some (e, w1) /\
                                base (mux0 (i2c w1)) = NULL).
    { rewrite (mmio_get_gpio_valid _ w Hpin). unfold bind.
      cbv [deref]. rewrite H0. cbv [pin].
      change (Z.quot P9_15 32) with 1.
      rewrite (map_bank_uncached w 1 Hlook). cbv zeta.
      destruct (upcoming w 0 =? -1) eqn:Hopen.
      - do 2 eexists. split; [reflexivity|].
        change (base (mux0 (i2c w)) = NULL). by rewrite H0.
      - destruct Hfail as [Hfail | Hfail];
          [rewrite Hfail in Hopen; discriminate Hopen|].
        rewrite Hfail. do 2 eexists. split; [reflexivity|].
        change (base (mux0 (i2c w)) = NULL). by rewrite H0. }
    destruct Hget as (e & w1 & Hget & Hnull).
    exact (configure_mux_crashes w Hpc e w1 Hget Hnull).
Qed.

Lemma configure_mux_failure_is_a_crash_witness :
  mux_unresolved (boot (reset_devices (-1))) /\
  upcoming (boot (reset_devices (-1))) 0 = -1 /\
  configure_mux (boot (reset_devices (-1))) = None.
Proof.
  assert (Hw : mux_unresolved (boot (reset_devices (-1)))).
  { repeat split; try reflexivity. left. reflexivity. }
  split; [exact Hw|]. split; [reflexivity|].
  apply (proj2 (configure_mux_failure_is_a_crash _ Hw)).
  - reflexivity.
  - left. reflexivity.
Defined.

(** X19. Whenever the first call of [configure_mux] returns, the
    direction register of GPIO1 has lost bit 16, the bit of [mux0], and
    nothing else: each of its other bits, bit 19 of [mux1] among them, is
    what it was before the call. *)
Theorem configure_mux_enables_one_output (w : World) (r : Z) (w1 : World) :
  mux_unresolved w ->
  configure_mux w = Some (r, w1) ->
  oe_bit w1 GPIO1_ADDR 16 = false /\
  oe_bit w1 GPIO1_ADDR 19 = oe_bit w GPIO1_ADDR 19 /\
  (forall n, 0 <= n < 32 -> n <> 16 ->
     oe_bit w1 GPIO1_ADDR n = oe_bit w GPIO1_ADDR n).
Proof.
  intros Hw Hrun. pose proof Hw as (_ & _ & Hpc & _).
  destruct (mmio_get_gpio_mux0_first w Hw)
    as [(e & w' & Hget & Hnull) | (w' & Hget & H0 & H1 & Hbank)].
  { rewrite (configure_mux_crashes w Hpc e w' Hget Hnull) in Hrun.
    discriminate Hrun. }
  destruct (configure_mux_resolves w Hpc w' Hget H0 H1 Hbank)
    as (w1' & Hrun' & _ & _ & _ & Hoe).
  rewrite Hrun' in Hrun. injection Hrun as <- <-.
  destruct (mmio_get_gpio_outcome _ _ _ _ Hget) as [Hhw _].
  rewrite Hhw in Hoe.
  assert (Hbits : forall n, 0 <= n < 32 ->
            oe_bit w1' GPIO1_ADDR n
              = oe_bit w GPIO1_ADDR n && negb (16 =? n)).
  { intros n Hn. unfold oe_bit. rewrite Hoe.
    change 0xFFFEFFFF with (Z.lxor 0xFFFFFFFF (2 ^ 16)).
    rewrite !testbit_clear_mask by lia.
    by destruct (Z.testbit _ n), (16 =? n). }
  split; [rewrite Hbits by lia; apply andb_false_r|].
  split; [rewrite Hbits by lia; apply andb_true_r|].
  intros n Hn Hne. rewrite Hbits by lia.
  replace (16 =? n) with false by (symmetry; apply Z.eqb_neq; lia).
  apply andb_true_r.
Qed.

Lemma configure_mux_enables_one_output_witness :
  mux_unresolved (boot (reset_devices 0)) /\
  exists w1,
    configure_mux (boot (reset_devices 0)) = Some (0, w1) /\
    oe_bit w1 GPIO1_ADDR 16 = false /\
    oe_bit w1 GPIO1_ADDR 19 = true.
Proof.
  assert (Hw : mux_unresolved (boot (reset_devices 0))).
  { repeat split; try reflexivity. left. reflexivity. }
  split; [exact Hw|].
  destruct (configure_mux_first_call _ Hw) as [Hcrash | (w1 & Hrun & _)].
  - vm_compute in Hcrash. discriminate Hcrash.
  - destruct (configure_mux_enables_one_output _ 0 w1 Hw Hrun)
      as (H16 & H19 & _).
    exists w1. split; [exact Hrun|]. split; [exact H16|].
    rewrite H19. reflexivity.
Defined.

(** ** The I2C character device *)

(** X20. [i2c_open] remembers a failed attempt as an open bus.  When the
    open of /dev/i2c-2 fails, the call returns -2 and leaves -1 in [*fd];
    when the open gives a descriptor in 1..127 and the I2C_SLAVE ioctl
    fails, it returns -2 and leaves the descriptor.  Either way [*fd] is
    not 0 any more, and the next call returns 0 at once, without a system
    call: no second open, and no slave address ever set. *)
Theorem i2c_open_failure_is_remembered (addr : Z) (b : I2C.bus) :
  (I2C.answers b (I2C.made b) = -1 ->
   exists b1,
     I2C.i2c_open 0 addr b = (-2, -1, b1) /\
     I2C.calls b1 = I2C.calls b ++ [I2C.Open "/dev/i2c-2" (-1)] /\
     I2C.i2c_open (-1) addr b1 = (0, -1, b1)) /\
  (forall d,
     I2C.answers b (I2C.made b) = d -> 1 <= d <= 127 ->
     I2C.answers b (S (I2C.made b)) < 0 ->
     exists b1,
       I2C.i2c_open 0 addr b = (-2, d, b1) /\
       I2C.calls b1 =
         I2C.calls b ++ [I2C.Open "/dev/i2c-2" d;
                         I2C.IoctlSlave d addr
                           (I2C.answers b (S (I2C.made b)))] /\
       I2C.i2c_open d addr b1 = (0, d, b1)).
Proof.
  split.
  - intros Hopen. unfold I2C.i2c_open, I2C.syscall. cbn. rewrite Hopen.
    eexists. split; [reflexivity|]. split; reflexivity.
  - intros d Hopen Hd Hioctl.
    assert (Hfd : CInt.to_int8 d = d).
    { unfold CInt.to_int8. rewrite Z.mod_small by lia. lia. }
    unfold I2C.i2c_open, I2C.syscall.
    change (CInt.truth (CInt.lnot 0)) with true. cbv iota.
    rewrite Hopen, Hfd.
    replace (d <? 0) with false by (symmetry; apply Z.ltb_ge; lia).
    cbn [I2C.answers I2C.made I2C.calls].
    replace (I2C.answers b (S (I2C.made b)) <? 0) with true
      by (symmetry; apply Z.ltb_lt; lia).
    eexists. split; [reflexivity|].
    split; [cbn; by rewrite <- app_assoc|].
    unfold CInt.truth, CInt.lnot.
    replace (d =? 0) with false by (symmetry; apply Z.eqb_neq; lia).
    reflexivity.
Qed.

Lemma i2c_open_failure_is_remembered_witness :
  exists b1,
    I2C.i2c_open 0 118
      {| I2C.answers := fun n => if (n =? 0)%nat then 5 else -1;
         I2C.made := 0; I2C.calls := [] |} = (-2, 5, b1) /\
    I2C.calls b1 = [I2C.Open "/dev/i2c-2" 5; I2C.IoctlSlave 5 118 (-1)] /\
    I2C.i2c_open 5 118 b1 = (0, 5, b1).
Proof.
  destruct (proj2 (i2c_open_failure_is_remembered 118
              {| I2C.answers := fun n => if (n =? 0)%nat then 5 else -1;
                 I2C.made := 0; I2C.calls := [] |}) 5)
    as (b1 & H1 & H2 & H3).
  - reflexivity.
  - lia.
  - cbn. lia.
  - exists b1. auto.
Defined.

(** X21. [*fd] is an [int8_t].  A descriptor in 128..255 does not fit: it
    is stored as the negative number [d - 256], the call returns -2 as if
    the open had failed, and neither the slave address is set nor the
    descriptor closed. *)
Theorem i2c_open_truncates_the_descriptor (addr d : Z) (b : I2C.bus) :
  I2C.answers b (I2C.made b) = d ->
  128 <= d <= 255 ->
  exists b1,
    I2C.i2c_open 0 addr b = (-2, d - 256, b1) /\
    I2C.calls b1 = I2C.calls b ++ [I2C.Open "/dev/i2c-2" d].
Proof.
  intros Hopen Hd.
  assert (Hfd : CInt.to_int8 d = d - 256).
  { unfold CInt.to_int8.
    replace (d + 128) with ((d - 128) + 1 * 256) by lia.
    rewrite Z.mod_add by lia. rewrite Z.mod_small by lia. lia. }
  unfold I2C.i2c_open, I2C.syscall.
  change (CInt.truth (CInt.lnot 0)) with true. cbv iota.
  rewrite Hopen, Hfd.
  replace (d - 256 <? 0) with true by (symmetry; apply Z.ltb_lt; lia).
  eexists. split; reflexivity.
Qed.

Lemma i2c_open_truncates_the_descriptor_witness :
  (128 <= 130 <= 255) /\
  exists b1,
    I2C.i2c_open 0 118
      {| I2C.answers := fun _ => 130; I2C.made := 0; I2C.calls := [] |}
    = (-2, -126, b1) /\
    I2C.calls b1 = [I2C.Open "/dev/i2c-2" 130].
Proof.
  assert (Hd : 128 <= 130 <= 255) by lia.
  split; [exact Hd|].
  exact (i2c_open_truncates_the_descriptor 118 130
           {| I2C.answers := fun _ => 130; I2C.made := 0; I2C.calls := [] |}
           eq_refl Hd).
Defined.

(** X22. [i2c_read] does not look at the result of the register-address
    write.  For a register other than 0 it writes the one address byte and
    then reads [length] bytes; for register 0 it only reads.  The result
    is -1 exactly when the [read] failed and 0 otherwise, whatever the
    address write returned. *)
Theorem i2c_read_ignores_the_address_write
    (reg_addr length : Z) (id : identifier) (b : I2C.bus) :
  let fd := id_fd id in
  let a0 := I2C.answers b (I2C.made b) in
  let a1 := I2C.answers b (S (I2C.made b)) in
  (reg_addr = 0 ->
   I2C.calls (snd (I2C.i2c_read reg_addr length id b)) =
     I2C.calls b ++ [I2C.Read fd length a0] /\
   (fst (I2C.i2c_read reg_addr length id b) = -1 <-> a0 < 0) /\
   (fst (I2C.i2c_read reg_addr length id b) = 0 <-> 0 <= a0)) /\
  (reg_addr <> 0 ->
   I2C.calls (snd (I2C.i2c_read reg_addr length id b)) =
     I2C.calls b ++ [I2C.Write fd [reg_addr] 1 a0; I2C.Read fd length a1] /\
   (fst (I2C.i2c_read reg_addr length id b) = -1 <-> a1 < 0) /\
   (fst (I2C.i2c_read reg_addr length id b) = 0 <-> 0 <= a1)).
Proof.
  cbv zeta. split.
  - intros ->. unfold I2C.i2c_read, I2C.syscall.
    change (CInt.truth 0) with false. cbv iota.
    cbn [fst snd I2C.calls].
    split; [reflexivity|].
    destruct (Z.ltb_spec (I2C.answers b (I2C.made b)) 0); split; lia.
  - intros Hreg. unfold I2C.i2c_read, I2C.syscall.
    unfold CInt.truth.
    replace (reg_addr =? 0) with false by (symmetry; apply Z.eqb_neq; lia).
    cbn [negb fst snd I2C.calls I2C.answers I2C.made].
    split; [by rewrite <- app_assoc|].
    destruct (Z.ltb_spec (I2C.answers b (S (I2C.made b))) 0); split; lia.
Qed.

Lemma i2c_read_ignores_the_address_write_witness :
  I2C.calls (snd (I2C.i2c_read 208 1 {| mux_id := 0; ext_mux_id := 0; id_fd := 3 |}
                    {| I2C.answers := fun n => if (n =? 0)%nat then -1 else 1;
                       I2C.made := 0; I2C.calls := [] |})) =
    [I2C.Write 3 [208] 1 (-1); I2C.Read 3 1 1] /\
  fst (I2C.i2c_read 208 1 {| mux_id := 0; ext_mux_id := 0; id_fd := 3 |}
         {| I2C.answers := fun n => if (n =? 0)%nat then -1 else 1;
            I2C.made := 0; I2C.calls := [] |}) = 0.
Proof.
  destruct (i2c_read_ignores_the_address_write 208 1
              {| mux_id := 0; ext_mux_id := 0; id_fd := 3 |}
              {| I2C.answers := fun n => if (n =? 0)%nat then -1 else 1;
                 I2C.made := 0; I2C.calls := [] |}) as [_ H].
  destruct H as (Hcalls & _ & Hzero); [lia|].
  split; [exact Hcalls|].
  apply Hzero. cbn. lia.
Defined.

(** X23. [i2c_write] asks [write] for [length + 1] bytes whether or not it
    put an address byte in front.  With a register other than 0 the buffer
    holds exactly those [length + 1] bytes; with register 0 it holds only
    [length], so the request runs one byte past the allocation.  The
    result is -2 exactly when [write] returned less than [length], so a
    transfer one byte short of the request is reported as complete. *)
Theorem i2c_write_requests_one_more_byte
    (reg_addr : Z) (reg_data : list Z) (length : Z) (id : identifier)
    (b : I2C.bus) :
  0 <= length < 65536 ->
  length <= Z.of_nat (List.length reg_data) ->
  let ret := I2C.answers b (I2C.made b) in
  exists buf,
    I2C.calls (snd (I2C.i2c_write reg_addr reg_data length id b)) =
      I2C.calls b ++ [I2C.Write (id_fd id) buf (length + 1) ret] /\
    Z.of_nat (List.length buf) =
      (if reg_addr =? 0 then length else length + 1) /\
    (fst (I2C.i2c_write reg_addr reg_data length id b) = -2 <->
       ret < length) /\
    (fst (I2C.i2c_write reg_addr reg_data length id b) = 0 <->
       length <= ret).
Proof.
  intros Hlen Hdata. cbv zeta.
  assert (H32 : CInt.to_uint32 (length + 1) = length + 1).
  { unfold CInt.to_uint32, CInt.to_unsigned.
    apply Z.mod_small. change (2 ^ 32) with 4294967296. lia. }
  assert (H16 : CInt.to_unsigned 16 length = length).
  { unfold CInt.to_unsigned. apply Z.mod_small.
    change (2 ^ 16) with 65536. lia. }
  assert (Htake : Z.of_nat (List.length (take (Z.to_nat length) reg_data))
                  = length).
  { rewrite length_take. lia. }
  unfold I2C.i2c_write, I2C.syscall. rewrite H32, H16.
  eexists. split; [|split].
  - destruct (I2C.answers b (I2C.made b) <? length); reflexivity.
  - rewrite length_app, Nat2Z.inj_add, Htake. unfold CInt.truth.
    destruct (Z.eqb_spec reg_addr 0) as [->|Hne].
    + reflexivity.
    + cbn [negb]. change (1 =? 0) with false. cbn [negb List.length]. lia.
  - destruct (Z.ltb_spec (I2C.answers b (I2C.made b)) length);
      cbn [fst]; split; split; lia.
Qed.

Lemma i2c_write_requests_one_more_byte_witness :
  exists buf,
    I2C.calls (snd (I2C.i2c_write 0 [182; 7] 2
                      {| mux_id := 0; ext_mux_id := 0; id_fd := 3 |}
                      {| I2C.answers := fun _ => 2;
                         I2C.made := 0; I2C.calls := [] |})) =
      [I2C.Write 3 buf 3 2] /\
    Z.of_nat (List.length buf) = 2 /\
    fst (I2C.i2c_write 0 [182; 7] 2
           {| mux_id := 0; ext_mux_id := 0; id_fd := 3 |}
           {| I2C.answers := fun _ => 2;
              I2C.made := 0; I2C.calls := [] |}) = 0.
Proof.
  destruct (i2c_write_requests_one_more_byte 0 [182; 7] 2
              {| mux_id := 0; ext_mux_id := 0; id_fd := 3 |}
              {| I2C.answers := fun _ => 2; I2C.made := 0; I2C.calls := [] |})
    as (buf & Hcalls & Hbuf & _ & Hzero).
  - lia.
  - cbn. lia.
  - exists buf. split; [exact Hcalls|]. split; [exact Hbuf|].
    apply Hzero. cbn. lia.
Defined.

(** ** The pins of [spi_open] *)

Lemma mmio_set_output_clears g w phys n :
  base g = Mapped phys ->
  0 <= number g <= 31 ->
  0 <= n < 32 ->
  exists w1,
    mmio_set_output g w = Some (tt, w1) /\
    spi w1 = spi w /\ i2c w1 = i2c w /\
    oe_bit w1 phys n = oe_bit w phys n && negb (number g =? n) /\
    (forall other, other <> phys ->
       gpio_hw (dev w1) other = gpio_hw (dev w) other).
Proof.
  intros Hbase Hnum Hn. eexists.
  split; [exact (mmio_set_output_mapped g w phys Hbase)|].
  split; [reflexivity|]. split; [reflexivity|]. split.
  - unfold oe_bit. rewrite stored_same, (proj1 (oe_after_store _ _)).
    rewrite (pin_mask_pow2 g Hnum). apply testbit_clear_mask; lia.
  - intros other Hother. by rewrite stored_other.
Qed.

(** X24. The pin set-up of [spi_open] either crashes or does its work.
    Started on the two pins as their initialisers leave them, it ignores
    the results of [mmio_get_gpio]; when it returns nevertheless, the chip
    select is bit 5 and the module select bit 18 of a mapped bank, and
    both bits are cleared in the direction registers of their banks: both
    pins are outputs. *)
Theorem spi_open_pins_both_outputs (w w1 : World) :
  cs_pin (spi w) = {| pin := P9_17; base := NULL; number := 0 |} ->
  ds_pin (spi w) = {| pin := P9_14; base := NULL; number := 0 |} ->
  spi_open_pins w = Some (tt, w1) ->
  exists p0 p1,
    cs_pin (spi w1) = {| pin := 0; base := Mapped p0; number := 5 |} /\
    ds_pin (spi w1) = {| pin := 0; base := Mapped p1; number := 18 |} /\
    oe_bit w1 p0 5 = false /\
    oe_bit w1 p1 18 = false.
Proof.
  intros Hcs Hds. unfold spi_open_pins.
  destruct (mmio_get_gpio The_cs_pin w) as [[e1 wa]|] eqn:H1;
    [|by rewrite (bind_None _ _ _ H1)].
  rewrite (bind_Some _ _ _ _ _ H1).
  destruct (mmio_get_gpio The_ds_pin wa) as [[e2 wb]|] eqn:H2;
    [|by rewrite (bind_None _ _ _ H2)].
  rewrite (bind_Some _ _ _ _ _ H2), bind_gets.
  destruct (mmio_get_gpio_outcome _ _ _ _ H1) as [_ Ha].
  destruct (mmio_get_gpio_outcome _ _ _ _ H2) as [_ Hb].
  assert (Hcs_b : cs_pin (spi wb) = cs_pin (spi wa)).
  { destruct Hb as [(_ & -> & _)|(_ & _ & p & _ & Hrest & _)];
      [reflexivity|].
    exact (Hrest The_cs_pin ltac:(discriminate)). }
  assert (Hds_a : ds_pin (spi wa) = ds_pin (spi w)).
  { destruct Ha as [(_ & -> & _)|(_ & _ & p & _ & Hrest & _)];
      [reflexivity|].
    exact (Hrest The_ds_pin ltac:(discriminate)). }
  destruct Ha as [(_ & Hspi_a & _)|(_ & _ & p0 & Hcs_a & _)].
  { assert (Hnull : base (cs_pin (spi wb)) = NULL)
      by (by rewrite Hcs_b, Hspi_a, Hcs).
    rewrite (bind_None _ _ _ (mmio_set_output_null _ wb Hnull)).
    discriminate. }
  change (deref The_cs_pin wa) with (cs_pin (spi wa)) in Hcs_a.
  change (deref The_cs_pin w) with (cs_pin (spi w)) in Hcs_a.
  rewrite Hcs in Hcs_a. change (Z.rem (pin _) 32) with 5 in Hcs_a.
  assert (Hcs_wb : cs_pin (spi wb)
                   = {| pin := 0; base := Mapped p0; number := 5 |})
    by (by rewrite Hcs_b).
  destruct (mmio_set_output_clears (cs_pin (spi wb)) wb p0 5)
    as (wc & Hout0 & Hspi_c & _ & Hbit0 & Hother0);
    [by rewrite Hcs_wb | rewrite Hcs_wb; cbn; lia | lia |].
  rewrite (bind_Some _ _ _ _ _ Hout0).
  destruct Hb as [(_ & Hspi_b & _)|(_ & _ & p1 & Hds_b & _)].
  { assert (Hnull : base (ds_pin (spi wb)) = NULL)
      by (by rewrite Hspi_b, Hds_a, Hds).
    rewrite (mmio_set_output_null _ wc Hnull).
    discriminate. }
  change (deref The_ds_pin wb) with (ds_pin (spi wb)) in Hds_b.
  change (deref The_ds_pin wa) with (ds_pin (spi wa)) in Hds_b.
  rewrite Hds_a, Hds in Hds_b. change (Z.rem (pin _) 32) with 18 in Hds_b.
  destruct (mmio_set_output_clears (ds_pin (spi wb)) wc p1 18)
    as (wd & Hout1 & Hspi_d & _ & Hbit1 & Hother1);
    [by rewrite Hds_b | rewrite Hds_b; cbn; lia | lia |].
  destruct (mmio_set_output_clears (ds_pin (spi wb)) wc p1 5)
    as (wd' & Hout1' & _ & _ & Hbit1' & _);
    [by rewrite Hds_b | rewrite Hds_b; cbn; lia | lia |].
  rewrite Hout1 in Hout1'. injection Hout1' as <-.
  rewrite Hout1. intros Hrun. injection Hrun as <-.
  exists p0, p1. rewrite Hspi_d, Hspi_c.
  split; [exact Hcs_wb|]. split; [exact Hds_b|]. split.
  - destruct (Z.eq_dec p0 p1) as [<-|Hne].
    + rewrite Hbit1', Hbit0, Hcs_wb. cbn [number].
      rewrite Z.eqb_refl. cbn. by rewrite andb_false_r.
    + unfold oe_bit. rewrite (Hother1 p0 Hne).
      fold (oe_bit wc p0 5). rewrite Hbit0, Hcs_wb. cbn [number].
      rewrite Z.eqb_refl. apply andb_false_r.
  - rewrite Hbit1, Hds_b. cbn [number]. rewrite Z.eqb_refl.
    apply andb_false_r.
Qed.

Lemma spi_open_pins_both_outputs_witness :
  exists w1 p0 p1,
    spi_open_pins (boot (reset_devices 0)) = Some (tt, w1) /\
    cs_pin (spi w1) = {| pin := 0; base := Mapped p0; number := 5 |} /\
    ds_pin (spi w1) = {| pin := 0; base := Mapped p1; number := 18 |} /\
    oe_bit w1 p0 5 = false /\
    oe_bit w1 p1 18 = false.
Proof.
  assert (Hruns : match spi_open_pins (boot (reset_devices 0)) with
                  | Some _ => true
                  | None => false
                  end = true) by (vm_compute; reflexivity).
  destruct (spi_open_pins (boot (reset_devices 0))) as [[[] w1]|] eqn:Hrun;
    [|discriminate Hruns].
  destruct (spi_open_pins_both_outputs (boot (reset_devices 0)) w1
              eq_refl eq_refl Hrun) as (p0 & p1 & H).
  exists w1, p0, p1. split; [reflexivity|exact H].
Defined.
